(** * angular-janus: the video-room container and the video box

    A shallow embedding of

      - [JanusVideoroomComponent]   (containers/janus-videoroom)
      - [VideoBoxComponent]         (the video box of one remote feed)

    and the properties of the room session handler, the attach retry, the
    publisher list and the substream quality monitor.

    Both components are event driven: a handler runs to completion, mutates
    the fields of [this], calls collaborators (the store, the output
    emitters, the timer queue) and may throw.  A handler is embedded as a
    function from the state before to the state after, the trace of calls it
    made, and how it completed. *)

From stdpp Require Import base tactics option list strings gmap.
From Stdlib Require Import ZArith Lia.

Local Open Scope Z_scope.
Local Open Scope string_scope.
Local Open Scope list_scope.

(** ** Handlers: state, trace and abrupt completion *)

Inductive Completion (A : Type) : Type :=
| Normal (a : A)
| Throw (err : string).
Arguments Normal {A} a.
Arguments Throw {A} err.

Record Outcome (S E A : Type) : Type := MkOutcome {
  final : S;
  trace : list E;
  completion : Completion A;
}.
Arguments MkOutcome {S E A} _ _ _.
Arguments final {S E A} _.
Arguments trace {S E A} _.
Arguments completion {S E A} _.

Definition M (S E A : Type) : Type := S → Outcome S E A.

Section Handler.
Context {S E : Type}.

Definition ret {A} (a : A) : M S E A :=
  λ s, MkOutcome s [] (Normal a).

Definition bind {A B} (f : A → M S E B) (m : M S E A) : M S E B :=
  λ s,
    let o := m s in
    match completion o with
    | Normal a =>
        let o' := f a (final o) in
        MkOutcome (final o') (trace o ++ trace o') (completion o')
    | Throw err => MkOutcome (final o) (trace o) (Throw err)
    end.

Definition get : M S E S := λ s, MkOutcome s [] (Normal s).
Definition modify (f : S → S) : M S E unit := λ s, MkOutcome (f s) [] (Normal tt).
Definition call (e : E) : M S E unit := λ s, MkOutcome s [e] (Normal tt).
Definition throw {A} (err : string) : M S E A := λ s, MkOutcome s [] (Throw err).

Definition completes {A} (o : Outcome S E A) : bool :=
  match completion o with Normal _ => true | Throw _ => false end.
End Handler.

#[global] Instance M_ret {S E} : MRet (M S E) := @ret S E.
#[global] Instance M_bind {S E} : MBind (M S E) := @bind S E.

(** Running handlers one after the other; a throw ends the run. *)
Fixpoint sequence_ {S E A} (h : A → M S E unit) (l : list A) : M S E unit :=
  match l with
  | [] => mret tt
  | a :: l' => h a ;; sequence_ h l'
  end.

(** JavaScript truthiness of a string-or-undefined value:
    [undefined] and the empty string are falsy. *)
Definition truthy (v : option string) : bool :=
  match v with
  | Some s => bool_decide (s ≠ EmptyString)
  | None => false
  end.

(** ** models/janus.models *)

(** The declarations of models/janus.models are not among the sources.  The
    enumerations and records below take their members from the data model of
    the specification (section 3) and from the uses the components make of
    them. *)

Module RoomInfoState.
(** Modelled from the spec: enum [RoomInfoState], the [state] of [RoomInfo]. *)
Inductive t :=
| uninitialized | initialized | attaching | attached | attach_failed
| registered | publishing | error.
#[global] Instance eq_dec : EqDecision t.
Proof. solve_decision. Defined.
End RoomInfoState.

Module PublishState.
(** Modelled from the spec: enum [PublishState], the [publishState] of
    [RoomInfo]. *)
Inductive t := idle | publishing | error.
#[global] Instance eq_dec : EqDecision t.
Proof. solve_decision. Defined.
End PublishState.

Module RemoteFeedState.
(** Modelled from the spec: enum [RemoteFeedState], the [state] of
    [RemoteFeed]. *)
Inductive t := pending | ready | closed.
#[global] Instance eq_dec : EqDecision t.
Proof. solve_decision. Defined.
End RemoteFeedState.

Module JanusRole.
(** Modelled from the spec: enum [JanusRole]; users are publishers or
    subscribers. *)
Inductive t := publisher | subscriber.
End JanusRole.

Module RoomInfo.
(** Modelled from the spec: interface [RoomInfo]. *)
Record t := Mk {
  state : RoomInfoState.t;
  publishState : PublishState.t;
  muted : bool;
  errorCode : option Z;      (* a number, or [undefined] *)
}.
End RoomInfo.

Module RemoteFeed.
(** Modelled from the spec: interface [RemoteFeed]. *)
Record t := Mk {
  id : string;
  state : RemoteFeedState.t;
  streamId : string;
  numVideoTracks : Z;
  currentSubstream : Z;
  requestedSubstream : Z;
}.
End RemoteFeed.

(** A [Publisher] is a [RemoteFeed] seen through a narrower interface. *)
Definition Publisher : Type := RemoteFeed.t.

(** Modelled from the spec: interface [IceServer], as the default value of
    the [iceServers] input shows it. *)
Record IceServer := { urls : string }.

(** Modelled from the spec: one row of the [JanusErrors] table; the
    component reads its [message]. *)
Record JanusError := { message : string }.

(** A JavaScript object used as a map from feed id to feed: its own
    properties, in the order [Object.keys] lists them. *)
Definition FeedMap := list (string * RemoteFeed.t).

Definition Object_keys (o : FeedMap) : list string := o.*1.

Fixpoint Object_get (o : FeedMap) (k : string) : option RemoteFeed.t :=
  match o with
  | [] => None
  | (k', v) :: o' => if decide (k' = k) then Some v else Object_get o' k
  end.

(** ** containers/janus-videoroom: [JanusVideoroomComponent] *)

Module JanusVideoroom.

(** The argument of [janusStore.register]. *)
Record RegisterPayload := {
  name : string;
  reg_userId : option string;
  reg_roomId : string;
  reg_pin : option string;        (* [None] is [null] *)
}.

(** The closures handed to [setTimeout]; the component has one. *)
Inductive TimerCallback :=
| RetryAttach.   (* () => this.janusStore.attachVideoRoom(this.janusServerUrl) *)

Record Timer := { callback : TimerCallback; delay : Z }.

(** Calls made on collaborators: the store, the output emitters and the
    browser's timer queue. *)
Inductive Effect :=
| Store_initialize (iceServers : list IceServer)
| Store_reset (iceServers : list IceServer)
| Store_setMute (muted : bool)
| Store_attachVideoRoom (url : option string)
| Store_register (payload : RegisterPayload)
| Emit_janusError (code : option Z) (message : string)
| Emit_publishers (publishers : list Publisher)
| SetTimeout (cb : TimerCallback) (ms : Z).

(** The fields of the component, followed by the two pieces of run-time
    state its handlers depend on: whether the [state$] subscription made by
    [setupJanusRoom] is still live ([takeUntil(this.destroy$)]), and the
    timers that were set and have not fired yet, oldest first. *)
Record t := Mk {
  roomId : string;
  wsUrl : option string;
  httpUrl : option string;
  pin : option string;
  userName : string;
  role : JanusRole.t;
  userId : option string;
  iceServers : list IceServer;
  muted : bool;
  janusServerUrl : option string;
  subscribed : bool;
  timers : list Timer;
}.

Definition set_janusServerUrl (v : option string) (c : t) : t :=
  Mk (roomId c) (wsUrl c) (httpUrl c) (pin c) (userName c) (role c) (userId c)
     (iceServers c) (muted c) v (subscribed c) (timers c).

Definition set_muted (v : bool) (c : t) : t :=
  Mk (roomId c) (wsUrl c) (httpUrl c) (pin c) (userName c) (role c) (userId c)
     (iceServers c) v (janusServerUrl c) (subscribed c) (timers c).

Definition set_subscribed (v : bool) (c : t) : t :=
  Mk (roomId c) (wsUrl c) (httpUrl c) (pin c) (userName c) (role c) (userId c)
     (iceServers c) (muted c) (janusServerUrl c) v (timers c).

Definition set_timers (v : list Timer) (c : t) : t :=
  Mk (roomId c) (wsUrl c) (httpUrl c) (pin c) (userName c) (role c) (userId c)
     (iceServers c) (muted c) (janusServerUrl c) (subscribed c) v.

Abbreviation Handler := (M t Effect).

(** [setTimeout(cb, ms)]: the timer joins the queue. *)
Definition setTimeout (cb : TimerCallback) (ms : Z) : Handler unit :=
  call (SetTimeout cb ms) ;;
  modify (λ c, set_timers (timers c ++ [Build_Timer cb ms]) c).

(** [this.wsUrl ? this.wsUrl : this.httpUrl] *)
Definition pickServerUrl (c : t) : option string :=
  if truthy (wsUrl c) then wsUrl c else httpUrl c.

Definition _setMuted (muted : bool) : Handler unit :=
  call (Store_setMute muted).

(** The [isMuted] setter. *)
Definition set_isMuted (muted : bool) : Handler unit :=
  modify (set_muted muted) ;;
  _setMuted muted.

Definition emitRemoteFeeds (remoteFeeds : list RemoteFeed.t) : Handler unit :=
  let publishers : list Publisher :=
    filter (λ feed, RemoteFeed.state feed = RemoteFeedState.ready) remoteFeeds in
  call (Emit_publishers publishers).

(** [Object.keys(remoteFeeds).map(id => remoteFeeds[id])] *)
Definition remoteFeedsArray (remoteFeeds : FeedMap) : list RemoteFeed.t :=
  omap (Object_get remoteFeeds) (Object_keys remoteFeeds).

(** *** Reading a trace *)

Definition muteCalls (tr : list Effect) : list bool :=
  omap (λ e, match e with Store_setMute m => Some m | _ => None end) tr.

Definition attachCalls (tr : list Effect) : list (option string) :=
  omap (λ e, match e with Store_attachVideoRoom u => Some u | _ => None end) tr.

Definition registerCalls (tr : list Effect) : list RegisterPayload :=
  omap (λ e, match e with Store_register p => Some p | _ => None end) tr.

Definition janusErrors (tr : list Effect) : list (option Z * string) :=
  omap (λ e, match e with Emit_janusError c m => Some (c, m) | _ => None end) tr.

Definition publisherLists (tr : list Effect) : list (list Publisher) :=
  omap (λ e, match e with Emit_publishers l => Some l | _ => None end) tr.

Definition timersSet (tr : list Effect) : list (TimerCallback * Z) :=
  omap (λ e, match e with SetTimeout cb ms => Some (cb, ms) | _ => None end) tr.

(** The calls the [switch] can make: attach, register, a retry timer, or the
    sentinel error. *)
Definition isStateAction (e : Effect) : bool :=
  match e with
  | Store_attachVideoRoom _ | Store_register _ | SetTimeout _ _
  | Emit_janusError _ _ => true
  | _ => false
  end.

Definition stateActions (tr : list Effect) : list Effect :=
  List.filter isStateAction tr.

(** The states for which the [switch] has a case. *)
Definition actionable (s : RoomInfoState.t) : bool :=
  match s with
  | RoomInfoState.initialized | RoomInfoState.attached
  | RoomInfoState.attach_failed => true
  | _ => false
  end.

Section WithErrorTable.

(** The [JanusErrors] table is declared in models, outside the sources: a
    plain object from error code to a row carrying the message. *)
Variable JanusErrors : gmap Z JanusError.

(** The four parts of the subscriber of [state$], in source order. *)

Definition reconcileMute (roomInfo : RoomInfo.t) : Handler unit :=
  c ← get;
  if bool_decide (RoomInfo.muted roomInfo ≠ muted c)
     && bool_decide (RoomInfo.publishState roomInfo = PublishState.publishing)
  then _setMuted (muted c)
  else mret tt.

(** [JanusErrors[roomInfo.errorCode]] is [undefined] for a code that is not a
    key of the table, and reading [.message] of [undefined] throws. *)
Definition reportPublishError (roomInfo : RoomInfo.t) : Handler unit :=
  if bool_decide (RoomInfo.publishState roomInfo = PublishState.error) then
    match RoomInfo.errorCode roomInfo ≫= (λ code, JanusErrors !! code) with
    | Some row =>
        let message := message row in
        call (Emit_janusError (RoomInfo.errorCode roomInfo) message)
    | None =>
        throw "TypeError: Cannot read properties of undefined (reading 'message')"
    end
  else mret tt.

(** The [switch (roomInfo.state)]. *)
Definition stateAction (roomInfo : RoomInfo.t) : Handler unit :=
  c ← get;
  let pin : option string := if truthy (pin c) then pin c else None in
  match RoomInfo.state roomInfo with
  | RoomInfoState.initialized =>
      call (Store_attachVideoRoom (janusServerUrl c))
  | RoomInfoState.attached =>
      call (Store_register
              {| name := userName c; reg_userId := userId c;
                 reg_roomId := roomId c; reg_pin := pin |})
  | RoomInfoState.attach_failed =>
      if bool_decide (janusServerUrl c ≠ httpUrl c) then
        modify (set_janusServerUrl (httpUrl c)) ;;
        setTimeout RetryAttach 100
      else
        call (Emit_janusError (Some 9999) "Unable to connect to media server")
  | _ => mret tt
  end.

(** The subscriber itself. *)
Definition onState (roomInfo : RoomInfo.t) (remoteFeeds : FeedMap) : Handler unit :=
  let remoteFeedsArray := remoteFeedsArray remoteFeeds in
  reconcileMute roomInfo ;;
  reportPublishError roomInfo ;;
  emitRemoteFeeds remoteFeedsArray ;;
  stateAction roomInfo.

(** [state$] emits: the subscriber runs if the subscription is live. *)
Definition deliver (roomInfo : RoomInfo.t) (remoteFeeds : FeedMap) : Handler unit :=
  c ← get;
  if subscribed c then onState roomInfo remoteFeeds else mret tt.

Definition setupJanusRoom : Handler unit :=
  c ← get;
  call (Store_initialize (iceServers c)) ;;
  modify (set_subscribed true).

(** [ngOnInit], without the device and media permission requests that
    precede [setupJanusRoom], and taken as one step: nothing happens between
    its first statement and [setupJanusRoom].  [JanusVideoroomHost] takes the
    two apart. *)
Definition ngOnInit : Handler unit :=
  modify (λ c, set_janusServerUrl (pickServerUrl c) c) ;;
  setupJanusRoom.

Definition ngOnDestroy : Handler unit :=
  modify (set_subscribed false).

Record SimpleChange := { firstChange : bool }.

Definition resetKeys : list string :=
  [ "roomId"; "wsUrl"; "httpUrl"; "iceServers"; "pin"; "role"; "userName";
    "userId"; "component" ].

(** The [for (const key of resetKeys)] loop with its [break]. *)
Fixpoint ngOnChanges_loop (changes : gmap string SimpleChange)
    (keys : list string) : Handler unit :=
  match keys with
  | [] => mret tt
  | key :: keys' =>
      match changes !! key with
      | Some ch =>
          if negb (firstChange ch) then
            modify (λ c, set_janusServerUrl (pickServerUrl c) c) ;;
            c ← get;
            call (Store_reset (iceServers c))
          else ngOnChanges_loop changes keys'
      | None => ngOnChanges_loop changes keys'
      end
  end.

Definition ngOnChanges (changes : gmap string SimpleChange) : Handler unit :=
  ngOnChanges_loop changes resetKeys.

(** A timer that has elapsed runs its callback. *)
Definition runCallback (cb : TimerCallback) : Handler unit :=
  match cb with
  | RetryAttach =>
      c ← get;
      call (Store_attachVideoRoom (janusServerUrl c))
  end.

Definition fireTimer : Handler unit :=
  c ← get;
  match timers c with
  | [] => mret tt
  | tm :: rest =>
      modify (set_timers rest) ;;
      runCallback (callback tm)
  end.

(** What can happen to the component once it is set up.  The inputs keep
    their values: [InputsChanged] is the call of [ngOnChanges] alone. *)
Inductive Stimulus :=
| StateEmission (roomInfo : RoomInfo.t) (remoteFeeds : FeedMap)
| TimerElapsed
| Destroyed
| InputsChanged (changes : gmap string SimpleChange)
| IsMutedSet (muted : bool).

Definition react (ev : Stimulus) : Handler unit :=
  match ev with
  | StateEmission roomInfo remoteFeeds => deliver roomInfo remoteFeeds
  | TimerElapsed => fireTimer
  | Destroyed => ngOnDestroy
  | InputsChanged changes => ngOnChanges changes
  | IsMutedSet muted => set_isMuted muted
  end.

(** A run of the component.  It ends at the first handler that throws: what
    the stream library does with a subscriber that threw is not modelled
    here, so a run describes the component up to its first throw.
    [JanusVideoroomHost.play] goes on after one. *)
Definition run (evs : list Stimulus) : Handler unit := sequence_ react evs.

(** What [state$] emits. *)
Definition Emission : Type := RoomInfo.t * FeedMap.

Definition runEmissions (es : list Emission) : Handler unit :=
  run (map (λ e, StateEmission e.1 e.2) es).

(** *** The session properties as the specification words them *)

(** An emission the subscriber handles to the end: if it is in error, its
    code is a key of the table. *)
Definition handled (e : Emission) : Prop :=
  RoomInfo.publishState e.1 = PublishState.error →
  is_Some (RoomInfo.errorCode e.1 ≫= (λ code, JanusErrors !! code)).

(** Emissions that enter an actionable state: the state differs from the one
    of the emission before. *)
Fixpoint stateEntries (prev : option RoomInfoState.t) (es : list Emission) : nat :=
  match es with
  | [] => 0%nat
  | e :: es' =>
      let s := RoomInfo.state e.1 in
      ((if actionable s && bool_decide (prev ≠ Some s) then 1 else 0)
       + stateEntries (Some s) es')%nat
  end.

(** Emissions that enter [publishState == error]. *)
Fixpoint errorEntries (prev : option PublishState.t) (es : list Emission) : nat :=
  match es with
  | [] => 0%nat
  | e :: es' =>
      let s := RoomInfo.publishState e.1 in
      ((if bool_decide (s = PublishState.error) && bool_decide (prev ≠ Some s)
        then 1 else 0)
       + errorEntries (Some s) es')%nat
  end.

(** "[...] exactly once per distinct state value": as many state-driven
    actions as entries into an actionable state. *)
Definition actsOncePerDistinctState (c : t) (es : list Emission) : Prop :=
  length (stateActions (trace (runEmissions es c))) = stateEntries None es.

(** "[...] exactly once per transition into error". *)
Definition reportsOncePerErrorEntry (c : t) (es : list Emission) : Prop :=
  length (janusErrors (trace (runEmissions es c))) = errorEntries None es.

(** "[...] unmapped error codes must still surface with a fallback generic
    message rather than throwing". *)
Definition errorEventIsTotal (c : t) (e : Emission) : Prop :=
  RoomInfo.publishState e.1 = PublishState.error →
  completes (onState e.1 e.2 c) = true
  ∧ ∃ message, (RoomInfo.errorCode e.1, message) ∈ janusErrors (trace (onState e.1 e.2 c)).

(** Whether a change of inputs resets the session: one of the reset keys
    changed, and not for the first time. *)
Definition resets (changes : gmap string SimpleChange) : bool :=
  existsb (λ key, match changes !! key with
                  | Some ch => negb (firstChange ch)
                  | None => false
                  end) resetKeys.

(** "[...] any pending retry timer from before the teardown produces no
    observable effect": whatever timers the run [before] left pending, once
    the teardown (destroy, or a change of inputs that resets the session)
    has happened, their elapsing makes no call. *)
Definition teardownCancelsRetry (c : t) (before : list Stimulus)
    (teardown : Stimulus) : Prop :=
  ∀ n : nat,
    trace (run (repeat TimerElapsed n)
             (final (react teardown (final (run before c))))) = [].

End WithErrorTable.

End JanusVideoroom.

(** ** components/video-box: [VideoBoxComponent] *)

Module VideoBox.

(** The interface of the scorer the video box holds: the three methods the
    component calls, each returning the scorer after the call. *)
Class VideoQualityHelper (H : Type) := {
  create : Z → H;                    (* new VideoQualityHelper(maxStreams) *)
  streamError : H → Z → H;
  ping : H → Z → H * Z;
  streamEnd : H → Z → H;
}.

(** Calls made by the component.  [Call_switchSubstream] records that
    [switchSubstream] was entered with that argument, which is how a
    proposed switch shows in a trace whether or not it is then emitted. *)
Inductive Effect :=
| Helper_streamError (substream : Z)
| Helper_ping (substream : Z)
| Helper_streamEnd (substream : Z)
| Call_switchSubstream (substreamId : Z)
| Console_log (substreamId : Z) (videoId : string)
| Emit_requestSubstream (feed : RemoteFeed.t) (substreamId : Z).

Inductive Mode := speaker | grid.

Definition Mode_toString (m : option Mode) : string :=
  match m with
  | Some speaker => "speaker"
  | Some grid => "grid"
  | None => "undefined"
  end.

Record t (H : Type) := Mk {
  remoteFeed : option RemoteFeed.t;
  mode : option Mode;
  videoId : string;
  videoQualityHelper : H;
}.
Arguments Mk {H} _ _ _ _.
Arguments remoteFeed {H} _.
Arguments mode {H} _.
Arguments videoId {H} _.
Arguments videoQualityHelper {H} _.

Definition set_remoteFeed {H} (v : option RemoteFeed.t) (c : t H) : t H :=
  Mk v (mode c) (videoId c) (videoQualityHelper c).

Definition set_videoId {H} (v : string) (c : t H) : t H :=
  Mk (remoteFeed c) (mode c) v (videoQualityHelper c).

Definition set_videoQualityHelper {H} (v : H) (c : t H) : t H :=
  Mk (remoteFeed c) (mode c) (videoId c) v.

Section WithHelper.
Context {H : Type} {helperOps : VideoQualityHelper H}.

Abbreviation Handler := (M (t H) Effect).

(** The constructor makes the scorer; the inputs are set afterwards. *)
Definition constructor : t H :=
  Mk None None EmptyString (create 3).

Definition helper_streamError (substream : Z) : Handler unit :=
  call (Helper_streamError substream) ;;
  modify (λ c, set_videoQualityHelper (streamError (videoQualityHelper c) substream) c).

Definition helper_ping (substream : Z) : Handler Z :=
  call (Helper_ping substream) ;;
  c ← get;
  let r := ping (videoQualityHelper c) substream in
  modify (set_videoQualityHelper r.1) ;;
  mret r.2.

Definition helper_streamEnd (substream : Z) : Handler unit :=
  call (Helper_streamEnd substream) ;;
  modify (λ c, set_videoQualityHelper (streamEnd (videoQualityHelper c) substream) c).

Definition switchSubstream (substreamId : Z) : Handler unit :=
  call (Call_switchSubstream substreamId) ;;
  c ← get;
  match remoteFeed c with
  | None =>
      throw "TypeError: Cannot read properties of undefined (reading 'requestedSubstream')"
  | Some feed =>
      if bool_decide (RemoteFeed.requestedSubstream feed ≠ substreamId) then
        call (Console_log substreamId (videoId c)) ;;
        call (Emit_requestSubstream feed substreamId)
      else mret tt
  end.

Definition monitorVideoQuality (slowLink : bool) : Handler unit :=
  c ← get;
  match remoteFeed c with
  | None => mret tt
  | Some feed =>
      let currentSubstream := RemoteFeed.currentSubstream feed in
      if bool_decide (RemoteFeed.numVideoTracks feed = 0) || slowLink then
        helper_streamError currentSubstream ;;
        if bool_decide (currentSubstream > 0) then
          switchSubstream (currentSubstream - 1)
        else mret tt
      else
        newSubstream ← helper_ping currentSubstream;
        if bool_decide (newSubstream > currentSubstream) then
          helper_streamEnd currentSubstream ;;
          switchSubstream newSubstream
        else mret tt
  end.

(** [ngOnInit], without the interval subscription. *)
Definition ngOnInit : Handler unit :=
  c ← get;
  match remoteFeed c with
  | None => throw "TypeError: Cannot read properties of undefined (reading 'id')"
  | Some feed =>
      modify (set_videoId ("video-" +:+ RemoteFeed.id feed +:+ Mode_toString (mode c)))
  end.

(** [ngOnChanges]: the slow-link detection is commented out in the source,
    so the monitor is run with [slowLink = false]; the interval does the
    same every second. *)
Definition ngOnChanges (changes : gmap string ()) : Handler unit :=
  match changes !! "remoteFeed" with
  | Some _ => let slowLink := false in monitorVideoQuality slowLink
  | None => mret tt
  end.

(** One evaluation of a feed: the parent hands the component the feed's
    latest value, and the monitor runs on it. *)
Definition Tick : Type := RemoteFeed.t * bool.

Definition tick (tk : Tick) : Handler unit :=
  modify (set_remoteFeed (Some tk.1)) ;;
  monitorVideoQuality tk.2.

Definition runTicks (tks : list Tick) : Handler unit := sequence_ tick tks.

(** A tick is healthy when it takes the [ping] branch of the monitor. *)
Definition healthy (tk : Tick) : bool :=
  negb (bool_decide (RemoteFeed.numVideoTracks tk.1 = 0) || tk.2).

(** What [switchSubstream] adds to a trace when the feed is there. *)
Definition switchTrace (c : t H) (feed : RemoteFeed.t) (substreamId : Z)
  : list Effect :=
  Call_switchSubstream substreamId ::
  if bool_decide (RemoteFeed.requestedSubstream feed ≠ substreamId)
  then [Console_log substreamId (videoId c); Emit_requestSubstream feed substreamId]
  else [].

Definition helperCalls (tr : list Effect) : list Effect :=
  List.filter (λ e, match e with
                    | Helper_streamError _ | Helper_ping _ | Helper_streamEnd _ => true
                    | _ => false
                    end) tr.

(** Whether a trace holds a proposal above the given layer. *)
Definition proposesAbove (cur : Z) (tr : list Effect) : bool :=
  existsb (λ e, match e with
                | Call_switchSubstream s => bool_decide (s > cur)
                | _ => false
                end) tr.

Definition proposals (tr : list Effect) : list Z :=
  omap (λ e, match e with Call_switchSubstream s => Some s | _ => None end) tr.

Definition requests (tr : list Effect) : list Z :=
  omap (λ e, match e with Emit_requestSubstream _ s => Some s | _ => None end) tr.

(** Whether some tick of the run proposes a layer above the one its feed is
    on. *)
Fixpoint upgradeProposed (tks : list Tick) (c : t H) : bool :=
  match tks with
  | [] => false
  | tk :: tks' =>
      let o := tick tk c in
      proposesAbove (RemoteFeed.currentSubstream tk.1) (trace o)
      || upgradeProposed tks' (final o)
  end.

End WithHelper.

End VideoBox.

(** ** The scorer *)

Module Scorer.

(** Modelled from the spec: class [VideoQualityHelper], which the video box
    imports from './video-quality-helper', is not among the sources.
    Section 4.3 gives it a counter of consecutive healthy pings at the
    current layer and an independent error counter; the candidate it returns
    rises by one layer only once a configurable number [needed] of
    consecutive healthy pings at the current layer have accumulated, and
    never beyond the highest of the [cap] layers [0 .. cap - 1]. *)
Record t := Mk {
  cap : Z;
  needed : nat;
  layer : Z;
  healthyPings : nat;
  errors : nat;
}.

(** Modelled from the spec: the constructor; the component passes the cap. *)
Definition create (needed : nat) (cap : Z) : t := Mk cap needed 0 0 0.

(** Modelled from the spec: "record a stream error at currentSubstream";
    the run of healthy pings is broken. *)
Definition streamError (s : t) (cur : Z) : t :=
  Mk (cap s) (needed s) cur 0 (S (errors s)).

(** Modelled from the spec: "record a healthy ping at currentSubstream; the
    scorer returns a candidate substream index". *)
Definition ping (s : t) (cur : Z) : t * Z :=
  let n := S (if bool_decide (layer s = cur) then healthyPings s else 0) in
  let s' := Mk (cap s) (needed s) cur n (errors s) in
  if bool_decide (needed s ≤ n)%nat && bool_decide (cur + 1 < cap s)
  then (s', cur + 1)
  else (s', cur).

(** Modelled from the spec: "close out scoring for the old layer". *)
Definition streamEnd (s : t) (cur : Z) : t :=
  Mk (cap s) (needed s) (layer s) 0 (errors s).

(** The scorer as the video box sees it. *)
Definition helper (needed : nat) : VideoBox.VideoQualityHelper t :=
  {| VideoBox.create := create needed;
     VideoBox.streamError := streamError;
     VideoBox.ping := ping;
     VideoBox.streamEnd := streamEnd |}.

(** The number of ticks at the end of a run that are healthy and on layer
    [cur], counted on the run reversed. *)
Fixpoint streak (cur : Z) (rev_tks : list VideoBox.Tick) : nat :=
  match rev_tks with
  | [] => 0%nat
  | tk :: rest =>
      if VideoBox.healthy tk && bool_decide (RemoteFeed.currentSubstream tk.1 = cur)
      then S (streak cur rest)
      else 0%nat
  end.

End Scorer.

(** ** containers/janus-videoroom: the events forwarded to the store *)

Module JanusVideoroomEvents.
Import JanusVideoroom.

(** Modelled from the spec: [AttachRemoteFeedEvent] of models, which is not
    among the sources; [onAttachRemoteFeed] reads its [feed] and
    [roomInfo]. *)
Record AttachRemoteFeedEvent := {
  ev_feed : RemoteFeed.t;
  ev_roomInfo : RoomInfo.t;
}.

(** The argument of [janusStore.attachRemoteFeed]. *)
Record AttachRemoteFeedPayload := {
  att_feed : RemoteFeed.t;
  att_roomInfo : RoomInfo.t;
  att_pin : option string;        (* [None] is [null] *)
}.

(** The store calls of the three event handlers; the events of
    [onPublishOwnFeed] and [onRequestSubstream] are passed on as they are. *)
Inductive Command (P R : Type) :=
| Store_publishOwnFeed (event : P)
| Store_requestSubstream (event : R)
| Store_attachRemoteFeed (payload : AttachRemoteFeedPayload).
Arguments Store_publishOwnFeed {P R} event.
Arguments Store_requestSubstream {P R} event.
Arguments Store_attachRemoteFeed {P R} payload.

Section WithEvents.
Context {P R : Type}.

Definition onPublishOwnFeed (event : P) : M JanusVideoroom.t (Command P R) unit :=
  call (Store_publishOwnFeed event).

Definition onRequestSubstream (event : R) : M JanusVideoroom.t (Command P R) unit :=
  call (Store_requestSubstream event).

Definition onAttachRemoteFeed (event : AttachRemoteFeedEvent)
  : M JanusVideoroom.t (Command P R) unit :=
  c ← get;
  let pin : option string := if truthy (pin c) then pin c else None in
  let feed := ev_feed event in
  let roomInfo := ev_roomInfo event in
  call (Store_attachRemoteFeed
          {| att_feed := feed; att_roomInfo := roomInfo; att_pin := pin |}).

End WithEvents.

End JanusVideoroomEvents.

(** ** containers/janus-videoroom: runs of the component *)

Module JanusVideoroomRuns.
Import JanusVideoroom.

(** The component from [ngOnInit] on. *)
Definition life (JanusErrors : gmap Z JanusError) (evs : list Stimulus)
  : M JanusVideoroom.t Effect unit :=
  ngOnInit ;; run JanusErrors evs.

End JanusVideoroomRuns.

(** ** containers/janus-videoroom: the component in its host *)

Module JanusVideoroomHost.
Import JanusVideoroom.

(** An input property of the component bound to a new value by the host
    template.  [isMuted] has a setter and [devices] and [component] are not
    read by the handlers modelled here. *)
Inductive Binding :=
| Bind_roomId (v : string)
| Bind_wsUrl (v : option string)
| Bind_httpUrl (v : option string)
| Bind_pin (v : option string)
| Bind_userName (v : string)
| Bind_role (v : JanusRole.t)
| Bind_userId (v : option string)
| Bind_iceServers (v : list IceServer).

Definition bindInput (c : t) (b : Binding) : t :=
  match b with
  | Bind_roomId v =>
      Mk v (wsUrl c) (httpUrl c) (pin c) (userName c) (role c) (userId c)
        (iceServers c) (muted c) (janusServerUrl c) (subscribed c) (timers c)
  | Bind_wsUrl v =>
      Mk (roomId c) v (httpUrl c) (pin c) (userName c) (role c) (userId c)
        (iceServers c) (muted c) (janusServerUrl c) (subscribed c) (timers c)
  | Bind_httpUrl v =>
      Mk (roomId c) (wsUrl c) v (pin c) (userName c) (role c) (userId c)
        (iceServers c) (muted c) (janusServerUrl c) (subscribed c) (timers c)
  | Bind_pin v =>
      Mk (roomId c) (wsUrl c) (httpUrl c) v (userName c) (role c) (userId c)
        (iceServers c) (muted c) (janusServerUrl c) (subscribed c) (timers c)
  | Bind_userName v =>
      Mk (roomId c) (wsUrl c) (httpUrl c) (pin c) v (role c) (userId c)
        (iceServers c) (muted c) (janusServerUrl c) (subscribed c) (timers c)
  | Bind_role v =>
      Mk (roomId c) (wsUrl c) (httpUrl c) (pin c) (userName c) v (userId c)
        (iceServers c) (muted c) (janusServerUrl c) (subscribed c) (timers c)
  | Bind_userId v =>
      Mk (roomId c) (wsUrl c) (httpUrl c) (pin c) (userName c) (role c) v
        (iceServers c) (muted c) (janusServerUrl c) (subscribed c) (timers c)
  | Bind_iceServers v =>
      Mk (roomId c) (wsUrl c) (httpUrl c) (pin c) (userName c) (role c) (userId c)
        v (muted c) (janusServerUrl c) (subscribed c) (timers c)
  end.

(** The component together with what the stream library holds for it: the
    subscriptions to [state$] made by [setupJanusRoom] that have not ended,
    all with the same subscriber, and whether [destroy$] has emitted and
    completed. *)
Record Host := MkHost {
  self : JanusVideoroom.t;
  live : nat;
  destroyed : bool;
}.

(** What the framework, the store and the browser do to the component. *)
Inductive Event :=
| Init_started        (* [ngOnInit] up to its first [await] *)
| Init_resumed        (* [ngOnInit] after its awaits: [setupJanusRoom()] *)
| State_emitted (roomInfo : RoomInfo.t) (remoteFeeds : FeedMap)
| Timer_elapsed
| Component_destroyed (* [ngOnDestroy] *)
| Inputs_bound (bindings : list Binding) (changes : gmap string SimpleChange)
                      (* the inputs are assigned, then [ngOnChanges(changes)] *)
| Muted_set (muted : bool).

Section WithLibrary.
Variable JanusErrors : gmap Z JanusError.

(** Whether the stream library ends a subscription whose subscriber threw
    (it reports the error out of band either way). *)
Variable unsubscribesOnError : bool.

(** The first statement of [ngOnInit]. *)
Definition ngOnInit_start : Handler unit :=
  modify (λ c, set_janusServerUrl (pickServerUrl c) c).

(** One emission of [state$], handed to [n] subscriptions one after the
    other: the component afterwards, the subscriptions still live, and the
    calls made.  A subscriber that throws does not stop the others. *)
Fixpoint emit (roomInfo : RoomInfo.t) (remoteFeeds : FeedMap) (n : nat) (c : t)
  : t * nat * list Effect :=
  match n with
  | O => (c, O, [])
  | S n' =>
      let o := onState JanusErrors roomInfo remoteFeeds c in
      let kept := if completes o || negb unsubscribesOnError then 1%nat else 0%nat in
      let rest := emit roomInfo remoteFeeds n' (final o) in
      (rest.1.1, (kept + rest.1.2)%nat, trace o ++ rest.2)
  end.

(** [takeUntil(this.destroy$)] ends the subscriptions made so far when
    [destroy$] emits; one made after [destroy$] has completed is never ended,
    and [next()] on the completed subject does nothing. *)
Definition step (ev : Event) (w : Host) : Host * list Effect :=
  match ev with
  | Init_started =>
      let o := ngOnInit_start (self w) in
      (MkHost (final o) (live w) (destroyed w), trace o)
  | Init_resumed =>
      let o := setupJanusRoom (self w) in
      (MkHost (final o) (S (live w)) (destroyed w), trace o)
  | State_emitted roomInfo remoteFeeds =>
      let r := emit roomInfo remoteFeeds (live w) (self w) in
      (MkHost r.1.1 r.1.2 (destroyed w), r.2)
  | Timer_elapsed =>
      let o := fireTimer (self w) in
      (MkHost (final o) (live w) (destroyed w), trace o)
  | Component_destroyed =>
      if destroyed w then (w, [])
      else
        let o := ngOnDestroy (self w) in
        (MkHost (final o) 0 true, trace o)
  | Inputs_bound bindings changes =>
      let o := ngOnChanges changes (foldl bindInput (self w) bindings) in
      (MkHost (final o) (live w) (destroyed w), trace o)
  | Muted_set muted =>
      let o := set_isMuted muted (self w) in
      (MkHost (final o) (live w) (destroyed w), trace o)
  end.

(** A run: the events in order.  No event ends it. *)
Fixpoint play (evs : list Event) (w : Host) : Host * list Effect :=
  match evs with
  | [] => (w, [])
  | ev :: evs' =>
      let now := step ev w in
      let later := play evs' now.1 in
      (later.1, now.2 ++ later.2)
  end.

End WithLibrary.

Definition rebindsHttpUrl (b : Binding) : bool :=
  match b with
  | Bind_httpUrl _ => true
  | _ => false
  end.

(** The events after which the server url may again differ from [httpUrl]:
    the start of [ngOnInit], a change of inputs that resets the session, and
    a new [httpUrl]. *)
Definition renews (ev : Event) : bool :=
  match ev with
  | Init_started => true
  | Inputs_bound bindings changes =>
      JanusVideoroom.resets changes || existsb rebindsHttpUrl bindings
  | _ => false
  end.

Definition renewals (evs : list Event) : nat :=
  length (List.filter renews evs).

(** The retries the component may still make: one, unless the server url is
    [httpUrl] already. *)
Definition retriesLeft (c : t) : nat :=
  if bool_decide (janusServerUrl c ≠ httpUrl c) then 1%nat else 0%nat.

Definition boundUrl (b : Binding) : option (option string) :=
  match b with
  | Bind_wsUrl v | Bind_httpUrl v => Some v
  | _ => None
  end.

(** The values bound to [wsUrl] and [httpUrl] along a run. *)
Fixpoint urlsBound (evs : list Event) : list (option string) :=
  match evs with
  | [] => []
  | Inputs_bound bindings _ :: evs' => omap boundUrl bindings ++ urlsBound evs'
  | _ :: evs' => urlsBound evs'
  end.

End JanusVideoroomHost.

(** ** components/video-box: a feed that follows the requests *)

Module VideoBoxRuns.

(** The ticks seen while a feed without video, playing substream [k], is
    moved down by the media server one request at a time: on each tick the
    feed plays the substream requested on the tick before. *)
Fixpoint descent (f : RemoteFeed.t) (k : nat) : list VideoBox.Tick :=
  let at_ (n : nat) :=
    RemoteFeed.Mk (RemoteFeed.id f) (RemoteFeed.state f) (RemoteFeed.streamId f)
      0 (Z.of_nat n) (Z.of_nat n) in
  match k with
  | O => [(at_ O, false)]
  | S k' => (at_ k, false) :: descent f k'
  end.

(** The substreams [k - 1, ..., 0]. *)
Fixpoint countdown (k : nat) : list Z :=
  match k with
  | O => []
  | S k' => Z.of_nat k' :: countdown k'
  end.

End VideoBoxRuns.

(** ** The device selector: [DeviceSelectorComponent] *)

Module DeviceSelector.

(** The browser's [MediaDeviceInfo], as returned by [webrtc.listDevices]. *)
Record MediaDeviceInfo := {
  deviceId : string;
  kind : string;
  label : string;
}.

(** Modelled from the spec: interface [Devices] of models/janus.models, which
    is not among the sources; the component reads and writes these three
    ids. *)
Record Devices := {
  audioDeviceId : option string;
  videoDeviceId : option string;
  speakerDeviceId : option string;
}.

(** The value of the form group built in [ngOnInit]. *)
Record Form := {
  audioDevice : option string;
  videoDevice : option string;
  speakerDevice : option string;
}.

Inductive Control := AudioDevice | VideoDevice | SpeakerDevice.

Definition setControl (k : Control) (v : option string) (f : Form) : Form :=
  match k with
  | AudioDevice => {| audioDevice := v; videoDevice := videoDevice f;
                      speakerDevice := speakerDevice f |}
  | VideoDevice => {| audioDevice := audioDevice f; videoDevice := v;
                      speakerDevice := speakerDevice f |}
  | SpeakerDevice => {| audioDevice := audioDevice f; videoDevice := videoDevice f;
                        speakerDevice := v |}
  end.

Inductive Effect :=
| Webrtc_listDevices
| ChangeDetector_detectChanges
| Emit_deviceUpdate (devices : Devices).

(** The fields of the component; [subscribed] is whether the subscription
    to [devicesForm.valueChanges] is live. *)
Record t := Mk {
  devices : Devices;
  devicesForm : option Form;
  availableAudioDevices : option (list MediaDeviceInfo);
  availableVideoDevices : option (list MediaDeviceInfo);
  availableSpeakerDevices : option (list MediaDeviceInfo);
  supportsSpeakerSelection : bool;
  subscribed : bool;
}.

Abbreviation Handler := (M t Effect).

(** [getDevices] up to its [await]: the list of devices is asked for. *)
Definition getDevices_start : Handler unit :=
  call Webrtc_listDevices.

(** [getDevices] from its [await] on, with the devices the promise resolved
    to and the answer of [webrtc.supportsSpeakerSelection()]. *)
Definition getDevices_resume (allDevices : list MediaDeviceInfo)
    (supports : bool) : Handler unit :=
  modify (λ c,
    Mk (devices c) (devicesForm c)
       (Some (filter (λ device, kind device = "audioinput") allDevices))
       (Some (filter (λ device, kind device = "videoinput") allDevices))
       (Some (filter (λ device, kind device = "audiooutput") allDevices))
       supports (subscribed c)) ;;
  call ChangeDetector_detectChanges.

Definition ngOnInit : Handler unit :=
  modify (λ c,
    Mk (devices c)
       (Some {| audioDevice := audioDeviceId (devices c);
                videoDevice := videoDeviceId (devices c);
                speakerDevice := speakerDeviceId (devices c) |})
       (availableAudioDevices c) (availableVideoDevices c)
       (availableSpeakerDevices c) (supportsSpeakerSelection c) (subscribed c)) ;;
  getDevices_start ;;
  modify (λ c,
    Mk (devices c) (devicesForm c) (availableAudioDevices c)
       (availableVideoDevices c) (availableSpeakerDevices c)
       (supportsSpeakerSelection c) true).

Definition ngOnDestroy : Handler unit :=
  modify (λ c,
    Mk (devices c) (devicesForm c) (availableAudioDevices c)
       (availableVideoDevices c) (availableSpeakerDevices c)
       (supportsSpeakerSelection c) false).

(** The subscriber of [devicesForm.valueChanges]. *)
Definition onValueChanges : Handler unit :=
  c ← get;
  match devicesForm c with
  | None => throw "TypeError: Cannot read properties of undefined (reading 'get')"
  | Some form =>
      let devices :=
        {| audioDeviceId := audioDevice form;
           videoDeviceId := videoDevice form;
           speakerDeviceId := speakerDevice form |} in
      call (Emit_deviceUpdate devices)
  end.

(** The user picks a device in one of the selectors: the control takes the
    value, and the form reports a value change to its live subscribers. *)
Definition select (k : Control) (v : option string) : Handler unit :=
  modify (λ c,
    Mk (devices c) (setControl k v <$> devicesForm c) (availableAudioDevices c)
       (availableVideoDevices c) (availableSpeakerDevices c)
       (supportsSpeakerSelection c) (subscribed c)) ;;
  c ← get;
  if subscribed c then onValueChanges else mret tt.

Definition selectAll (picks : list (Control * option string)) : Handler unit :=
  sequence_ (λ p, select p.1 p.2) picks.

Definition deviceUpdates (tr : list Effect) : list Devices :=
  omap (λ e, match e with Emit_deviceUpdate d => Some d | _ => None end) tr.

(** The three kinds a [MediaDeviceInfo] can have. *)
Definition knownKind (k : string) : Prop :=
  k = "audioinput" ∨ k = "videoinput" ∨ k = "audiooutput".

(** What the input devices become after the picks, one control at a time. *)
Definition setDevice (k : Control) (v : option string) (d : Devices) : Devices :=
  match k with
  | AudioDevice => {| audioDeviceId := v; videoDeviceId := videoDeviceId d;
                      speakerDeviceId := speakerDeviceId d |}
  | VideoDevice => {| audioDeviceId := audioDeviceId d; videoDeviceId := v;
                      speakerDeviceId := speakerDeviceId d |}
  | SpeakerDevice => {| audioDeviceId := audioDeviceId d; videoDeviceId := videoDeviceId d;
                        speakerDeviceId := v |}
  end.

Fixpoint picked (d : Devices) (picks : list (Control * option string))
  : list Devices :=
  match picks with
  | [] => []
  | p :: rest => let d' := setDevice p.1 p.2 d in d' :: picked d' rest
  end.

(** The component as constructed, with its [devices] input set. *)
Definition constructor (d : Devices) : t :=
  Mk d None None None None false false.

End DeviceSelector.

(** ** Inputs used by the closed examples *)

Module Sample.
Import JanusVideoroom.

(** A table with two rows; the rows of the real table are not needed. *)
Definition errors : gmap Z JanusError :=
  <[426 := {| message := "No such room" |}]>
    (<[433 := {| message := "Unauthorized request" |}]> ∅).

Definition ws : option string := Some "wss://janus.conf.meetecho.com/ws".
Definition http : option string := Some "https://janus.conf.meetecho.com/janus".

(** The component after [ngOnInit], both urls given. *)
Definition room : JanusVideoroom.t :=
  JanusVideoroom.Mk "1234" ws http None "janus user" JanusRole.publisher None
    [ {| urls := "stun:stun2.l.google.com:19302" |} ] false ws true [].

(** The same component once a first attach failure has been handled. *)
Definition retrying : JanusVideoroom.t :=
  JanusVideoroom.Mk "1234" ws http None "janus user" JanusRole.publisher None
    [ {| urls := "stun:stun2.l.google.com:19302" |} ] false http true
    [ {| callback := RetryAttach; delay := 100 |} ].

Definition info (s : RoomInfoState.t) (p : PublishState.t) (code : option Z)
  : RoomInfo.t := RoomInfo.Mk s p false code.

Definition feed (i : string) (s : RemoteFeedState.t) (tracks cur req : Z)
  : RemoteFeed.t := RemoteFeed.Mk i s i tracks cur req.

Definition feeds : FeedMap :=
  [ ("10", feed "10" RemoteFeedState.ready 1 0 0);
    ("11", feed "11" RemoteFeedState.pending 1 0 0);
    ("12", feed "12" RemoteFeedState.ready 1 2 2) ].

Definition userNameChanged : gmap string SimpleChange :=
  {[ "userName" := {| firstChange := false |} ]}.

(** A video box whose scorer asks for three healthy pings. *)
Definition box (f : RemoteFeed.t) : VideoBox.t Scorer.t :=
  VideoBox.set_remoteFeed (Some f)
    (VideoBox.constructor (helperOps := Scorer.helper 3)).

(** A feed on substream 2 that lost its video track; the same feed once the
    switch to substream 1 has been requested; a feed playing on substream 0. *)
Definition stalled : RemoteFeed.t := feed "12" RemoteFeedState.ready 0 2 2.
Definition switching : RemoteFeed.t := feed "12" RemoteFeedState.ready 0 2 1.
Definition playing : RemoteFeed.t := feed "10" RemoteFeedState.ready 1 0 0.

End Sample.

(** ** Further inputs for closed examples *)

Module SampleRuns.
Import JanusVideoroom.

(** The room component as constructed, inputs set, before [ngOnInit]. *)
Definition constructed : JanusVideoroom.t :=
  JanusVideoroom.Mk "1234" Sample.ws Sample.http (Some "secret") "janus user"
    JanusRole.publisher None
    [ {| urls := "stun:stun2.l.google.com:19302" |} ] false None false [].

(** The same with no websocket url. *)
Definition httpOnly : JanusVideoroom.t :=
  JanusVideoroom.Mk "1234" None Sample.http None "janus user"
    JanusRole.publisher None
    [ {| urls := "stun:stun2.l.google.com:19302" |} ] false None false [].

Definition quiet (s : RoomInfoState.t) : RoomInfo.t :=
  Sample.info s PublishState.idle None.

(** Publishing, with the microphone reported open, then reported muted. *)
Definition publishingOpen : RoomInfo.t :=
  RoomInfo.Mk RoomInfoState.publishing PublishState.publishing false None.
Definition publishingMuted : RoomInfo.t :=
  RoomInfo.Mk RoomInfoState.publishing PublishState.publishing true None.

Definition camera : DeviceSelector.MediaDeviceInfo :=
  {| DeviceSelector.deviceId := "cam0"; DeviceSelector.kind := "videoinput";
     DeviceSelector.label := "Camera" |}.

End SampleRuns.

(** * Properties *)

(** ** Handlers *)

Ltac unfold_handler :=
  unfold mbind, mret, M_bind, M_ret, bind, ret, get, modify, call, throw in *.

Lemma bind_eq {S E A B} (f : A → M S E B) (m : M S E A) (s : S) :
  (m ≫= f) s =
  match completion (m s) with
  | Normal a =>
      MkOutcome (final (f a (final (m s))))
                (trace (m s) ++ trace (f a (final (m s))))
                (completion (f a (final (m s))))
  | Throw err => MkOutcome (final (m s)) (trace (m s)) (Throw err)
  end.
Proof. done. Qed.

Ltac project := cbn [final trace completion].

(** Case analysis on a decidable [P] that a hypothesis tests with
    [bool_decide] and the goal with [decide]. *)
Ltac count_case P H :=
  destruct (decide P);
  [ rewrite (bool_decide_true P) in H by done
  | rewrite (bool_decide_false P) in H by done ].

(** ** The room session handler *)

Section Videoroom.
Import JanusVideoroom.
Variable JanusErrors : gmap Z JanusError.

Lemma reconcileMute_outcome roomInfo c :
  reconcileMute roomInfo c =
  MkOutcome c
    (if bool_decide (RoomInfo.muted roomInfo ≠ muted c)
        && bool_decide (RoomInfo.publishState roomInfo = PublishState.publishing)
     then [Store_setMute (muted c)] else [])
    (Normal tt).
Proof.
  unfold reconcileMute, _setMuted. unfold_handler. simpl.
  by destruct (_ && _).
Qed.

Lemma reportPublishError_outcome roomInfo c :
  reportPublishError JanusErrors roomInfo c =
  if bool_decide (RoomInfo.publishState roomInfo = PublishState.error) then
    match RoomInfo.errorCode roomInfo ≫= (λ code, JanusErrors !! code) with
    | Some row =>
        MkOutcome c [Emit_janusError (RoomInfo.errorCode roomInfo) (message row)]
          (Normal tt)
    | None =>
        MkOutcome c []
          (Throw "TypeError: Cannot read properties of undefined (reading 'message')")
    end
  else MkOutcome c [] (Normal tt).
Proof.
  unfold reportPublishError. case_bool_decide; [|done].
  by destruct (_ ≫= _).
Qed.

Lemma emitRemoteFeeds_outcome l c :
  emitRemoteFeeds l c =
  MkOutcome c
    [Emit_publishers (filter (λ feed, RemoteFeed.state feed = RemoteFeedState.ready) l)]
    (Normal tt).
Proof. done. Qed.

Lemma stateAction_completes roomInfo c :
  completion (stateAction roomInfo c) = Normal tt.
Proof.
  unfold stateAction, setTimeout. unfold_handler. simpl.
  destruct (RoomInfo.state roomInfo); simpl; try done.
  by case_bool_decide.
Qed.

(** The subscriber either throws in its second part, having at most
    reconciled the mute flag, or runs its four parts in order. *)
Lemma onState_outcome roomInfo remoteFeeds c :
  onState JanusErrors roomInfo remoteFeeds c =
  let m := trace (reconcileMute roomInfo c) in
  let r := reportPublishError JanusErrors roomInfo c in
  match completion r with
  | Throw err => MkOutcome c m (Throw err)
  | Normal _ =>
      MkOutcome (final (stateAction roomInfo c))
        (m ++ trace r
           ++ trace (emitRemoteFeeds (remoteFeedsArray remoteFeeds) c)
           ++ trace (stateAction roomInfo c))
        (Normal tt)
  end.
Proof.
  unfold onState. cbv zeta.
  pose proof (stateAction_completes roomInfo c) as Hs.
  rewrite bind_eq, reconcileMute_outcome. project.
  rewrite bind_eq.
  destruct (reportPublishError JanusErrors roomInfo c) as [c' tr [[]|err]] eqn:Hr;
    project.
  - assert (c' = c) as ->.
    { revert Hr. rewrite reportPublishError_outcome.
      repeat case_match; congruence. }
    rewrite bind_eq, emitRemoteFeeds_outcome. project.
    by rewrite Hs.
  - assert (c' = c ∧ tr = []) as [-> ->].
    { revert Hr. rewrite reportPublishError_outcome.
      repeat case_match; intros [= <- <-]; done. }
    by rewrite app_nil_r.
Qed.

Lemma stateAction_attach_failed roomInfo c :
  RoomInfo.state roomInfo = RoomInfoState.attach_failed →
  stateAction roomInfo c =
  if bool_decide (janusServerUrl c ≠ httpUrl c) then
    MkOutcome
      (set_timers (timers c ++ [Build_Timer RetryAttach 100])
         (set_janusServerUrl (httpUrl c) c))
      [SetTimeout RetryAttach 100] (Normal tt)
  else
    MkOutcome c [Emit_janusError (Some 9999) "Unable to connect to media server"]
      (Normal tt).
Proof.
  intros Hs. unfold stateAction, setTimeout. unfold_handler. simpl.
  rewrite Hs. by case_bool_decide.
Qed.

Lemma stateAction_subscribed roomInfo c :
  subscribed (final (stateAction roomInfo c)) = subscribed c.
Proof.
  unfold stateAction, setTimeout. unfold_handler. simpl.
  destruct (RoomInfo.state roomInfo); try done. by case_bool_decide.
Qed.

Lemma stateAction_no_mute roomInfo c :
  muteCalls (trace (stateAction roomInfo c)) = [].
Proof.
  unfold stateAction, setTimeout. unfold_handler. simpl.
  destruct (RoomInfo.state roomInfo); try done. by case_bool_decide.
Qed.

Lemma stateAction_no_publishers roomInfo c :
  publisherLists (trace (stateAction roomInfo c)) = [].
Proof.
  unfold stateAction, setTimeout. unfold_handler. simpl.
  destruct (RoomInfo.state roomInfo); try done. by case_bool_decide.
Qed.

Lemma stateAction_no_error roomInfo c :
  RoomInfo.state roomInfo ≠ RoomInfoState.attach_failed →
  janusErrors (trace (stateAction roomInfo c)) = [].
Proof.
  unfold stateAction, setTimeout. unfold_handler. simpl.
  by destruct (RoomInfo.state roomInfo).
Qed.

Lemma reportPublishError_no_mute roomInfo c :
  muteCalls (trace (reportPublishError JanusErrors roomInfo c)) = [].
Proof. rewrite reportPublishError_outcome. by repeat case_match. Qed.

Lemma reportPublishError_no_publishers roomInfo c :
  publisherLists (trace (reportPublishError JanusErrors roomInfo c)) = [].
Proof. rewrite reportPublishError_outcome. by repeat case_match. Qed.

Lemma reconcileMute_no_publishers roomInfo c :
  publisherLists (trace (reconcileMute roomInfo c)) = [].
Proof. rewrite reconcileMute_outcome. project. by case_match. Qed.

(** An emission whose publish state is not [error] cannot make the
    subscriber throw; its trace is the mute call, if any, the publisher list
    and the state action. *)
Lemma onState_no_error roomInfo remoteFeeds c :
  RoomInfo.publishState roomInfo ≠ PublishState.error →
  onState JanusErrors roomInfo remoteFeeds c =
  MkOutcome (final (stateAction roomInfo c))
    (trace (reconcileMute roomInfo c)
       ++ trace (emitRemoteFeeds (remoteFeedsArray remoteFeeds) c)
       ++ trace (stateAction roomInfo c))
    (Normal tt).
Proof.
  intros Hp. rewrite onState_outcome. cbv zeta.
  rewrite reportPublishError_outcome. by rewrite bool_decide_false.
Qed.

(** ** C9: mute reconciliation *)

(** C9. On every emitted pair the subscriber issues a mute command iff the
    desired mute state differs from [roomInfo.muted] and the publish state
    is [publishing]; the command carries the desired value, and there is
    exactly one.  In every other publish state none is issued. *)
Theorem mute_reconciled_while_publishing roomInfo remoteFeeds c :
  muteCalls (trace (onState JanusErrors roomInfo remoteFeeds c)) =
  if bool_decide (RoomInfo.muted roomInfo ≠ muted c)
     && bool_decide (RoomInfo.publishState roomInfo = PublishState.publishing)
  then [muted c] else [].
Proof.
  rewrite onState_outcome. cbv zeta.
  pose proof (reportPublishError_no_mute roomInfo c) as Hr.
  pose proof (stateAction_no_mute roomInfo c) as Hs.
  rewrite reconcileMute_outcome. project.
  destruct (completion (reportPublishError JanusErrors roomInfo c)); project.
  - unfold muteCalls in *. rewrite !omap_app, Hr, Hs, emitRemoteFeeds_outcome.
    project. simpl. rewrite app_nil_r. by destruct (_ && _).
  - by destruct (_ && _).
Qed.

(** ** C10: the publisher list *)

Lemma remoteFeedsArray_values (o : FeedMap) :
  NoDup (Object_keys o) → remoteFeedsArray o = o.*2.
Proof.
  unfold remoteFeedsArray, Object_keys.
  assert (∀ pre, NoDup ((pre ++ o).*1) →
            omap (Object_get (pre ++ o)) o.*1 = o.*2) as Hgen.
  { induction o as [|[k v] o IH]; intros pre Hnd; [done|]. simpl.
    assert (Object_get (pre ++ (k, v) :: o) k = Some v) as ->.
    { clear IH. induction pre as [|[k' v'] pre IHp]; simpl.
      - by rewrite decide_True.
      - simpl in Hnd. apply NoDup_cons in Hnd as [Hk Hnd].
        rewrite decide_False; [by apply IHp|].
        intros ->. apply Hk. rewrite fmap_app. simpl. set_solver. }
    f_equal. specialize (IH (pre ++ [(k, v)])).
    rewrite <- app_assoc in IH. simpl in IH. by apply IH. }
  apply (Hgen []).
Qed.

(** C10. Whatever list of feeds is handed to [emitRemoteFeeds], exactly one
    publisher list is emitted, and it is the order-preserving subsequence of
    the feeds whose state is [ready]: a sublist, holding exactly those
    feeds, unchanged by filtering again.  The subscriber emits that list,
    computed from the feeds in [Object.keys] order, on every emission it
    handles to the end, and emits no other. *)
Theorem publishers_are_the_ready_feeds roomInfo remoteFeeds (l : list RemoteFeed.t) c :
  let ready := λ feed, RemoteFeed.state feed = RemoteFeedState.ready in
  publisherLists (trace (emitRemoteFeeds l c)) = [filter ready l]
  ∧ filter ready l `sublist_of` l
  ∧ (∀ feed, feed ∈ filter ready l ↔ feed ∈ l ∧ ready feed)
  ∧ filter ready (filter ready l) = filter ready l
  ∧ publisherLists (trace (onState JanusErrors roomInfo remoteFeeds c)) =
    if completes (onState JanusErrors roomInfo remoteFeeds c)
    then [filter ready (remoteFeedsArray remoteFeeds)] else [].
Proof.
  intros ready. split_and!.
  - done.
  - apply sublist_filter.
  - intros feed. rewrite list_elem_of_filter. tauto.
  - rewrite list_filter_filter. apply list_filter_iff. tauto.
  - rewrite onState_outcome. cbv zeta.
    pose proof (reportPublishError_no_publishers roomInfo c) as Hr.
    pose proof (stateAction_no_publishers roomInfo c) as Hs.
    pose proof (reconcileMute_no_publishers roomInfo c) as Hm.
    unfold completes.
    destruct (completion (reportPublishError JanusErrors roomInfo c)); project.
    + unfold publisherLists in *. rewrite !omap_app, Hm, Hr, Hs.
      by rewrite emitRemoteFeeds_outcome.
    + done.
Qed.

(** ** Sequences of emissions *)

Lemma deliver_subscribed roomInfo remoteFeeds c :
  subscribed c = true →
  deliver JanusErrors roomInfo remoteFeeds c = onState JanusErrors roomInfo remoteFeeds c.
Proof.
  intros Hsub. unfold deliver. rewrite bind_eq. unfold get. project.
  rewrite Hsub. by destruct (onState _ _ _ _).
Qed.

Lemma deliver_unsubscribed roomInfo remoteFeeds c :
  subscribed c = false →
  deliver JanusErrors roomInfo remoteFeeds c = MkOutcome c [] (Normal tt).
Proof.
  intros Hsub. unfold deliver. rewrite bind_eq. unfold get. project.
  by rewrite Hsub.
Qed.

Lemma runEmissions_cons e es c :
  runEmissions JanusErrors (e :: es) c =
  (deliver JanusErrors e.1 e.2 ;; runEmissions JanusErrors es) c.
Proof. done. Qed.

(** The event the second part of the subscriber emits for an emission. *)
Lemma reportPublishError_mapped roomInfo c :
  (RoomInfo.publishState roomInfo = PublishState.error →
   is_Some (RoomInfo.errorCode roomInfo ≫= (λ code, JanusErrors !! code))) →
  reportPublishError JanusErrors roomInfo c =
  MkOutcome c
    (if bool_decide (RoomInfo.publishState roomInfo = PublishState.error) then
       match RoomInfo.errorCode roomInfo ≫= (λ code, JanusErrors !! code) with
       | Some row => [Emit_janusError (RoomInfo.errorCode roomInfo) (message row)]
       | None => []
       end
     else [])
    (Normal tt).
Proof.
  intros Hm. rewrite reportPublishError_outcome.
  case_bool_decide as Hp; [|done].
  by destruct (Hm Hp) as [row ->].
Qed.

Lemma onState_mapped roomInfo remoteFeeds c :
  (RoomInfo.publishState roomInfo = PublishState.error →
   is_Some (RoomInfo.errorCode roomInfo ≫= (λ code, JanusErrors !! code))) →
  onState JanusErrors roomInfo remoteFeeds c =
  MkOutcome (final (stateAction roomInfo c))
    (trace (reconcileMute roomInfo c)
       ++ trace (reportPublishError JanusErrors roomInfo c)
       ++ trace (emitRemoteFeeds (remoteFeedsArray remoteFeeds) c)
       ++ trace (stateAction roomInfo c))
    (Normal tt).
Proof.
  intros Hm. rewrite onState_outcome. cbv zeta.
  by rewrite (reportPublishError_mapped _ _ Hm).
Qed.

(** Induction over a run of emissions none of which throws: a property of
    traces that holds of the empty trace and is kept by appending the trace
    of one handled emission holds of the run. *)
Lemma runEmissions_handled_ind
    (P : list Emission → list Effect → Prop) :
  P [] [] →
  (∀ e es c tr, subscribed c = true → handled JanusErrors e → P es tr →
     P (e :: es) (trace (onState JanusErrors e.1 e.2 c) ++ tr)) →
  ∀ es c, subscribed c = true → Forall (handled JanusErrors) es →
    P es (trace (runEmissions JanusErrors es c)).
Proof.
  intros Hnil Hcons es. induction es as [|e es IH]; intros c Hsub Hall.
  - done.
  - apply Forall_cons in Hall as [He Hall].
    rewrite runEmissions_cons, bind_eq, deliver_subscribed by done.
    assert (completion (onState JanusErrors e.1 e.2 c) = Normal tt) as ->
      by by rewrite onState_mapped.
    project. apply Hcons; [done..|]. apply IH; [|done].
    rewrite onState_mapped by done. project.
    by rewrite stateAction_subscribed.
Qed.

(** What one handled emission adds to the calls of a run. *)
Lemma onState_counts roomInfo remoteFeeds c :
  handled JanusErrors (roomInfo, remoteFeeds) →
  let tr := trace (onState JanusErrors roomInfo remoteFeeds c) in
  length (attachCalls tr) =
    (if bool_decide (RoomInfo.state roomInfo = RoomInfoState.initialized)
     then 1 else 0)%nat
  ∧ length (registerCalls tr) =
    (if bool_decide (RoomInfo.state roomInfo = RoomInfoState.attached)
     then 1 else 0)%nat
  ∧ (length (timersSet tr) + length (janusErrors tr) =
     (if bool_decide (RoomInfo.state roomInfo = RoomInfoState.attach_failed)
      then 1 else 0)
     + (if bool_decide (RoomInfo.publishState roomInfo = PublishState.error)
        then 1 else 0))%nat.
Proof.
  intros Hm tr. subst tr. rewrite onState_mapped by done. project.
  rewrite reconcileMute_outcome, (reportPublishError_mapped _ _ Hm),
    emitRemoteFeeds_outcome. project.
  unfold handled in Hm. simpl in Hm.
  unfold stateAction, setTimeout. unfold_handler.
  destruct roomInfo as [st ps mu code]; simpl in *.
  destruct (bool_decide (mu ≠ muted c) && _);
    destruct ps; simpl;
    try (destruct Hm as [row ->]; [done|]);
    destruct st; simpl; try done;
    by case_bool_decide.
Qed.

(** ** C2: the state-driven action *)

(** C2 (as amended). For every sequence of emitted pairs that the live
    subscription handles without throwing, the state-driven action is
    performed once per emission, whether or not the state changed since the
    emission before: as many [attachVideoRoom] calls as emissions in state
    [initialized], as many [register] calls as emissions in state
    [attached], and one failure handling (a retry timer or the sentinel
    error) per emission in state [attach_failed], next to the one error
    event of each emission in publish state [error]. *)
Theorem state_action_on_every_emission c (es : list Emission) :
  subscribed c = true →
  Forall (handled JanusErrors) es →
  let tr := trace (runEmissions JanusErrors es c) in
  length (attachCalls tr) =
    length (filter (λ e : Emission, RoomInfo.state e.1 = RoomInfoState.initialized) es)
  ∧ length (registerCalls tr) =
    length (filter (λ e : Emission, RoomInfo.state e.1 = RoomInfoState.attached) es)
  ∧ (length (timersSet tr) + length (janusErrors tr) =
     length (filter (λ e : Emission, RoomInfo.state e.1 = RoomInfoState.attach_failed) es)
     + length (filter (λ e : Emission, RoomInfo.publishState e.1 = PublishState.error) es))%nat.
Proof.
  intros Hsub Hall. cbv zeta.
  apply (runEmissions_handled_ind (λ es tr,
    length (attachCalls tr) =
      length (filter (λ e : Emission, RoomInfo.state e.1 = RoomInfoState.initialized) es)
    ∧ length (registerCalls tr) =
      length (filter (λ e : Emission, RoomInfo.state e.1 = RoomInfoState.attached) es)
    ∧ (length (timersSet tr) + length (janusErrors tr) =
       length (filter (λ e : Emission, RoomInfo.state e.1 = RoomInfoState.attach_failed) es)
       + length (filter (λ e : Emission, RoomInfo.publishState e.1 = PublishState.error) es))%nat));
    [done| |done..].
  clear. intros [roomInfo remoteFeeds] es c tr _ He (IHa & IHr & IHf).
  destruct (onState_counts roomInfo remoteFeeds c He) as (Ha & Hr & Hf).
  unfold attachCalls, registerCalls, timersSet, janusErrors in *.
  rewrite !omap_app, !length_app, !filter_cons. cbn [fst snd] in *.
  count_case (RoomInfo.state roomInfo = RoomInfoState.initialized) Ha;
    count_case (RoomInfo.state roomInfo = RoomInfoState.attached) Hr;
    count_case (RoomInfo.state roomInfo = RoomInfoState.attach_failed) Hf;
    count_case (RoomInfo.publishState roomInfo = PublishState.error) Hf;
    simpl length; lia.
Qed.

(** ** C3: the fatal error event *)

(** C3 (as amended). For every sequence of emitted pairs that the live
    subscription handles without throwing, none of them in state
    [attach_failed], the error events emitted are, in order, one
    [{code, message}] per emission whose publish state is [error], with the
    message of the table: an emission that repeats an unchanged error state
    emits the event again. *)
Theorem error_event_on_every_error_emission c (es : list Emission) :
  subscribed c = true →
  Forall (handled JanusErrors) es →
  Forall (λ e : Emission, RoomInfo.state e.1 ≠ RoomInfoState.attach_failed) es →
  janusErrors (trace (runEmissions JanusErrors es c)) =
  omap (λ e : Emission,
          if bool_decide (RoomInfo.publishState e.1 = PublishState.error) then
            row ← RoomInfo.errorCode e.1 ≫= (λ code, JanusErrors !! code);
            Some (RoomInfo.errorCode e.1, message row)
          else None) es.
Proof.
  intros Hsub Hall. revert es c Hsub Hall.
  apply (runEmissions_handled_ind (λ es tr,
    Forall (λ e : Emission, RoomInfo.state e.1 ≠ RoomInfoState.attach_failed) es →
    janusErrors tr =
    omap (λ e : Emission,
            if bool_decide (RoomInfo.publishState e.1 = PublishState.error) then
              row ← RoomInfo.errorCode e.1 ≫= (λ code, JanusErrors !! code);
              Some (RoomInfo.errorCode e.1, message row)
            else None) es)); [done|].
  intros [roomInfo remoteFeeds] es c tr _ He IH Hna.
  apply Forall_cons in Hna as [Hna Hrest]. simpl in Hna.
  unfold janusErrors in *. rewrite omap_app, (IH Hrest).
  rewrite onState_mapped by done. project. cbn [fst snd].
  rewrite !omap_app.
  pose proof (stateAction_no_error roomInfo c Hna) as Hs.
  unfold janusErrors in Hs. rewrite Hs.
  rewrite reconcileMute_outcome, (reportPublishError_mapped _ _ He),
    emitRemoteFeeds_outcome. project.
  unfold handled in He. simpl in *.
  assert (∀ b : bool,
            janusErrors (if b then [Store_setMute (muted c)] else []) = [])
    as Hmute by (by intros []).
  unfold janusErrors in Hmute. rewrite Hmute. clear Hmute.
  destruct (decide (RoomInfo.publishState roomInfo = PublishState.error)) as [Hp|Hp].
  - rewrite !bool_decide_true by done.
    destruct (He Hp) as [row Hrow]. by rewrite Hrow.
  - by rewrite !bool_decide_false by done.
Qed.

(** ** C4: error codes outside the table *)

(** C4 (what the code does). When the publish state is [error] and the error
    code is not a key of the table (or is [undefined]), the subscriber
    throws while reading the message: no error event is emitted, no
    publisher list, and the state-driven action is not performed. *)
Theorem unmapped_error_code_throws roomInfo remoteFeeds c :
  RoomInfo.publishState roomInfo = PublishState.error →
  RoomInfo.errorCode roomInfo ≫= (λ code, JanusErrors !! code) = None →
  let o := onState JanusErrors roomInfo remoteFeeds c in
  completes o = false
  ∧ trace o = []
  ∧ final o = c.
Proof.
  intros Hp Hn. cbv zeta. rewrite onState_outcome. cbv zeta.
  rewrite reportPublishError_outcome, reconcileMute_outcome.
  rewrite bool_decide_true by done. rewrite Hn. project.
  rewrite Hp. rewrite andb_false_r. done.
Qed.

(** ** C1: attach failure *)

(** C1. When the room state is [attach_failed] the state-driven action
    completes and does one of two things.  If the url just tried differs
    from [httpUrl], it makes [httpUrl] the server url and sets exactly one
    timer, of 100 ms, that retries the attach; when that timer elapses the
    one call made is [attachVideoRoom(httpUrl)], and a further failure then
    takes the other branch.  If the url just tried is [httpUrl], no timer is
    set and exactly one error event is emitted, with code 9999 and message
    'Unable to connect to media server'.  On an emission that is not in
    publish state [error] these are the only timers and error events of the
    whole subscriber. *)
Theorem attach_failed_retries_once_then_fatal roomInfo remoteFeeds c :
  RoomInfo.state roomInfo = RoomInfoState.attach_failed →
  let o := stateAction roomInfo c in
  let sentinel := (Some 9999, "Unable to connect to media server") in
  completes o = true
  ∧ (janusServerUrl c ≠ httpUrl c →
       trace o = [SetTimeout RetryAttach 100]
       ∧ janusServerUrl (final o) = httpUrl c
       ∧ timers (final o) = timers c ++ [Build_Timer RetryAttach 100]
       ∧ (timers c = [] →
            trace (fireTimer (final o)) = [Store_attachVideoRoom (httpUrl c)]
            ∧ timers (final (fireTimer (final o))) = [])
       ∧ (∀ roomInfo',
            RoomInfo.state roomInfo' = RoomInfoState.attach_failed →
            timersSet (trace (stateAction roomInfo' (final o))) = []
            ∧ janusErrors (trace (stateAction roomInfo' (final o))) = [sentinel]))
  ∧ (janusServerUrl c = httpUrl c →
       trace o = [Emit_janusError sentinel.1 sentinel.2]
       ∧ final o = c)
  ∧ (RoomInfo.publishState roomInfo ≠ PublishState.error →
       let tr := trace (onState JanusErrors roomInfo remoteFeeds c) in
       timersSet tr =
         (if bool_decide (janusServerUrl c ≠ httpUrl c)
          then [(RetryAttach, 100)] else [])
       ∧ janusErrors tr =
         (if bool_decide (janusServerUrl c ≠ httpUrl c) then [] else [sentinel])
       ∧ attachCalls tr = []).
Proof.
  intros Hs. cbv zeta. split_and!.
  - unfold completes. by rewrite stateAction_completes.
  - intros Hne. rewrite (stateAction_attach_failed _ _ Hs).
    rewrite bool_decide_true by done. project. split_and!; try done.
    + intros Hnil. unfold fireTimer, runCallback. unfold_handler. simpl.
      rewrite Hnil. done.
    + intros roomInfo' Hs'. rewrite (stateAction_attach_failed _ _ Hs').
      rewrite bool_decide_false; [done|]. simpl. by intros Hn; apply Hn.
  - intros Heq. rewrite (stateAction_attach_failed _ _ Hs).
    rewrite bool_decide_false; [done|]. by intros Hn; apply Hn.
  - intros Hp. rewrite onState_no_error by done. project.
    rewrite reconcileMute_outcome, emitRemoteFeeds_outcome,
      (stateAction_attach_failed _ _ Hs). project.
    unfold timersSet, janusErrors, attachCalls. rewrite !omap_app.
    destruct (bool_decide (RoomInfo.muted roomInfo ≠ muted c) && _);
      by case_bool_decide.
Qed.

(** ** C5: teardown and the retry timer *)

(** The loop resets the session at the first reset key that changed, and
    does so once. *)
Lemma ngOnChanges_loop_outcome changes keys c :
  ngOnChanges_loop changes keys c =
  if existsb (λ key, match changes !! key with
                     | Some ch => negb (firstChange ch)
                     | None => false
                     end) keys
  then MkOutcome (set_janusServerUrl (pickServerUrl c) c)
         [Store_reset (iceServers c)] (Normal tt)
  else MkOutcome c [] (Normal tt).
Proof.
  induction keys as [|key keys IH]; [done|]. simpl.
  destruct (changes !! key) as [ch|]; [|done].
  by destruct (firstChange ch).
Qed.

(** C5 (what the code does). No teardown touches the timer queue: the
    handle that [setTimeout] returns is not kept, and no handler clears a
    timer.  With a retry timer pending, [ngOnDestroy] makes no call and
    leaves the queue as it was, and [ngOnChanges] with a changed reset key
    calls [janusStore.reset], picks the server url from the inputs again and
    leaves the queue as it was.  In both cases the oldest timer, when it
    then elapses, makes one [attachVideoRoom] call, with the server url of
    that moment. *)
Theorem pending_retry_survives_teardown c tm rest :
  timers c = tm :: rest →
  (let o := ngOnDestroy c in
   trace o = []
   ∧ timers (final o) = tm :: rest
   ∧ trace (fireTimer (final o)) = [Store_attachVideoRoom (janusServerUrl c)])
  ∧ (∀ changes,
       resets changes = true →
       let o := ngOnChanges changes c in
       trace o = [Store_reset (iceServers c)]
       ∧ timers (final o) = tm :: rest
       ∧ trace (fireTimer (final o)) = [Store_attachVideoRoom (pickServerUrl c)]).
Proof.
  intros Htm. split.
  - cbv zeta. unfold ngOnDestroy. unfold_handler. project.
    split_and!; [done..|].
    unfold fireTimer, runCallback. unfold_handler. simpl. rewrite Htm.
    by destruct tm as [[] ?].
  - intros changes Hr. cbv zeta. unfold ngOnChanges.
    rewrite ngOnChanges_loop_outcome. unfold resets in Hr. rewrite Hr. project.
    split_and!; [done..|].
    unfold fireTimer, runCallback. unfold_handler. simpl. rewrite Htm.
    by destruct tm as [[] ?].
Qed.

End Videoroom.

(** ** The session properties on concrete runs *)

Section VideoroomExamples.
Import JanusVideoroom Sample.

(** Two emissions in the unchanged state [initialized] attach twice. *)
Lemma repeated_state_repeats_action :
  ¬ actsOncePerDistinctState errors room
      [ (info RoomInfoState.initialized PublishState.idle None, feeds);
        (info RoomInfoState.initialized PublishState.idle None, feeds) ].
Proof. unfold actsOncePerDistinctState. vm_compute. discriminate. Qed.

Lemma repeated_state_attach_calls :
  attachCalls (trace (runEmissions errors
      [ (info RoomInfoState.initialized PublishState.idle None, feeds);
        (info RoomInfoState.initialized PublishState.idle None, feeds) ] room))
  = [ws; ws].
Proof. vm_compute. reflexivity. Qed.

Lemma state_action_on_every_emission_witness :
  subscribed room = true
  ∧ length (attachCalls (trace (runEmissions errors
      [ (info RoomInfoState.initialized PublishState.idle None, feeds);
        (info RoomInfoState.initialized PublishState.idle None, feeds);
        (info RoomInfoState.attached PublishState.error (Some 426), feeds) ] room)))
    = 2%nat.
Proof.
  split; [reflexivity|].
  refine (proj1 (state_action_on_every_emission errors room
    [ (info RoomInfoState.initialized PublishState.idle None, feeds);
      (info RoomInfoState.initialized PublishState.idle None, feeds);
      (info RoomInfoState.attached PublishState.error (Some 426), feeds) ] _ _)).
  - reflexivity.
  - repeat constructor; intros Hp; try discriminate Hp.
    vm_compute. eexists. reflexivity.
Defined.

(** Two emissions in the unchanged publish state [error] emit the error
    event twice. *)
Lemma repeated_error_repeats_event :
  ¬ reportsOncePerErrorEntry errors room
      [ (info RoomInfoState.registered PublishState.error (Some 426), feeds);
        (info RoomInfoState.registered PublishState.error (Some 426), feeds) ].
Proof. unfold reportsOncePerErrorEntry. vm_compute. discriminate. Qed.

Lemma error_event_on_every_error_emission_witness :
  subscribed room = true
  ∧ janusErrors (trace (runEmissions errors
      [ (info RoomInfoState.registered PublishState.error (Some 426), feeds);
        (info RoomInfoState.registered PublishState.error (Some 426), feeds) ] room))
    = [ (Some 426, "No such room"); (Some 426, "No such room") ].
Proof.
  split; [reflexivity|].
  refine (error_event_on_every_error_emission errors room
    [ (info RoomInfoState.registered PublishState.error (Some 426), feeds);
      (info RoomInfoState.registered PublishState.error (Some 426), feeds) ] _ _ _).
  - reflexivity.
  - repeat constructor; intros _; vm_compute; eexists; reflexivity.
  - repeat constructor; discriminate.
Defined.

(** An error code outside the table: the subscriber throws. *)
Lemma unmapped_error_code_throws_witness :
  errors !! 499 = None
  ∧ completes (onState errors
      (info RoomInfoState.registered PublishState.error (Some 499)) feeds room)
    = false
  ∧ trace (onState errors
      (info RoomInfoState.registered PublishState.error (Some 499)) feeds room)
    = [].
Proof.
  split; [reflexivity|].
  pose proof (unmapped_error_code_throws errors
    (info RoomInfoState.registered PublishState.error (Some 499)) feeds room
    eq_refl eq_refl) as (Hc & Ht & _).
  exact (conj Hc Ht).
Defined.

Lemma error_event_not_total :
  ¬ errorEventIsTotal errors room
      (info RoomInfoState.registered PublishState.error (Some 499), feeds).
Proof. intros H. destruct (H eq_refl) as [Hc _]. vm_compute in Hc. discriminate. Qed.

(** The first attach failure of the sample room, on the websocket url. *)
Lemma attach_failed_retries_once_then_fatal_witness :
  RoomInfo.state (info RoomInfoState.attach_failed PublishState.idle None)
    = RoomInfoState.attach_failed
  ∧ trace (stateAction
      (info RoomInfoState.attach_failed PublishState.idle None) room)
    = [SetTimeout RetryAttach 100].
Proof.
  split; [reflexivity|].
  pose proof (attach_failed_retries_once_then_fatal errors
    (info RoomInfoState.attach_failed PublishState.idle None) feeds room
    eq_refl) as (_ & Hretry & _).
  apply Hretry. discriminate.
Defined.

(** A retry timer set before the component is destroyed, or before the
    session is reset, still attaches when it elapses; after the reset it
    attaches to the websocket url again. *)
Lemma teardown_leaves_retry_running :
  ¬ teardownCancelsRetry errors room
      [StateEmission (info RoomInfoState.attach_failed PublishState.idle None) feeds]
      Destroyed
  ∧ ¬ teardownCancelsRetry errors room
      [StateEmission (info RoomInfoState.attach_failed PublishState.idle None) feeds]
      (InputsChanged userNameChanged).
Proof.
  split; intros H; specialize (H 1%nat); vm_compute in H; discriminate.
Qed.

Lemma retry_after_teardown_calls :
  trace (run errors
    [ StateEmission (info RoomInfoState.attach_failed PublishState.idle None) feeds;
      Destroyed; TimerElapsed ] room)
  = [ Emit_publishers [feed "10" RemoteFeedState.ready 1 0 0;
                       feed "12" RemoteFeedState.ready 1 2 2];
      SetTimeout RetryAttach 100;
      Store_attachVideoRoom http ]
  ∧ attachCalls (trace (run errors
    [ StateEmission (info RoomInfoState.attach_failed PublishState.idle None) feeds;
      InputsChanged userNameChanged; TimerElapsed ] room))
  = [ws].
Proof. split; vm_compute; reflexivity. Qed.

Lemma retrying_is_reached :
  final (run errors
    [StateEmission (info RoomInfoState.attach_failed PublishState.idle None) feeds]
    room) = retrying.
Proof. vm_compute. reflexivity. Qed.

Lemma pending_retry_survives_teardown_witness :
  timers retrying = [Build_Timer RetryAttach 100]
  ∧ trace (fireTimer (final (ngOnDestroy retrying))) = [Store_attachVideoRoom http]
  ∧ trace (fireTimer (final (ngOnChanges userNameChanged retrying)))
    = [Store_attachVideoRoom ws].
Proof.
  split; [reflexivity|].
  pose proof (pending_retry_survives_teardown retrying
    (Build_Timer RetryAttach 100) [] eq_refl) as [(_ & _ & Hdestroy) Hreset].
  destruct (Hreset userNameChanged eq_refl) as (_ & _ & Hfire).
  exact (conj Hdestroy Hfire).
Defined.

End VideoroomExamples.

(** ** The video box *)

Section VideoBoxFacts.
Import VideoBox.
Context {H : Type} {helperOps : VideoQualityHelper H}.

Lemma switchSubstream_outcome (c : VideoBox.t H) feed substreamId :
  remoteFeed c = Some feed →
  switchSubstream substreamId c =
  MkOutcome c (switchTrace c feed substreamId) (Normal tt).
Proof.
  intros Hf. unfold switchSubstream, switchTrace. unfold_handler. simpl.
  rewrite Hf. by case_bool_decide.
Qed.

(** The monitor on a tick that takes the error branch. *)
Lemma monitor_unhealthy (c : VideoBox.t H) feed slowLink :
  remoteFeed c = Some feed →
  RemoteFeed.numVideoTracks feed = 0 ∨ slowLink = true →
  let cur := RemoteFeed.currentSubstream feed in
  monitorVideoQuality slowLink c =
  MkOutcome
    (set_videoQualityHelper (streamError (videoQualityHelper c) cur) c)
    (Helper_streamError cur ::
     if bool_decide (cur > 0) then switchTrace c feed (cur - 1) else [])
    (Normal tt).
Proof.
  intros Hf Hbad. cbv zeta.
  assert (bool_decide (RemoteFeed.numVideoTracks feed = 0) || slowLink = true) as Hb.
  { destruct Hbad as [->| ->]; [done|]. apply orb_true_r. }
  unfold monitorVideoQuality, helper_streamError, switchSubstream, switchTrace.
  unfold_handler. simpl. rewrite Hf, Hb. simpl.
  destruct (bool_decide (RemoteFeed.currentSubstream feed > 0)); simpl; [|done].
  rewrite Hf. by destruct (bool_decide (RemoteFeed.requestedSubstream feed ≠ _)).
Qed.

(** The monitor on a tick that takes the ping branch. *)
Lemma monitor_healthy (c : VideoBox.t H) feed slowLink :
  remoteFeed c = Some feed →
  RemoteFeed.numVideoTracks feed ≠ 0 → slowLink = false →
  let cur := RemoteFeed.currentSubstream feed in
  let r := ping (videoQualityHelper c) cur in
  monitorVideoQuality slowLink c =
  if bool_decide (r.2 > cur) then
    MkOutcome (set_videoQualityHelper (streamEnd r.1 cur) c)
      (Helper_ping cur :: Helper_streamEnd cur :: switchTrace c feed r.2)
      (Normal tt)
  else
    MkOutcome (set_videoQualityHelper r.1 c) [Helper_ping cur] (Normal tt).
Proof.
  intros Hf Hn ->. cbv zeta.
  unfold monitorVideoQuality, helper_ping, helper_streamEnd, switchSubstream,
    switchTrace.
  unfold_handler. simpl. rewrite Hf, bool_decide_false by done. simpl.
  destruct (bool_decide (_ > _)); simpl; [|done].
  rewrite Hf. by destruct (bool_decide (RemoteFeed.requestedSubstream feed ≠ _)).
Qed.

Lemma requests_app (a b : list Effect) :
  requests (a ++ b) = requests a ++ requests b.
Proof. apply omap_app. Qed.

Lemma switchTrace_proposals (c : VideoBox.t H) feed s :
  proposals (switchTrace c feed s) = [s].
Proof. unfold switchTrace. by case_bool_decide. Qed.

Lemma switchTrace_requests (c : VideoBox.t H) feed s :
  requests (switchTrace c feed s) =
  if bool_decide (RemoteFeed.requestedSubstream feed ≠ s) then [s] else [].
Proof. unfold switchTrace. by case_bool_decide. Qed.

Lemma switchTrace_helperCalls (c : VideoBox.t H) feed s :
  helperCalls (switchTrace c feed s) = [].
Proof. unfold switchTrace. by case_bool_decide. Qed.

(** A tick first stores the feed, then runs the monitor on it. *)
Lemma tick_eq (tk : Tick) (c : VideoBox.t H) :
  tick tk c = monitorVideoQuality tk.2 (set_remoteFeed (Some tk.1) c).
Proof.
  unfold tick. rewrite bind_eq. unfold modify. project.
  by destruct (monitorVideoQuality _ _).
Qed.

Lemma healthy_spec (tk : Tick) :
  healthy tk = true ↔ RemoteFeed.numVideoTracks tk.1 ≠ 0 ∧ tk.2 = false.
Proof.
  unfold healthy. destruct tk as [feed []]; simpl.
  - rewrite orb_true_r. simpl. intuition congruence.
  - rewrite orb_false_r. case_bool_decide; simpl; intuition congruence.
Qed.

Lemma unhealthy_spec (tk : Tick) :
  healthy tk = false ↔ RemoteFeed.numVideoTracks tk.1 = 0 ∨ tk.2 = true.
Proof.
  unfold healthy. destruct tk as [feed []]; simpl.
  - rewrite orb_true_r. simpl. intuition congruence.
  - rewrite orb_false_r. case_bool_decide; simpl; intuition congruence.
Qed.

(** ** C6: an unhealthy tick *)

(** C6. On every tick on which the feed has no video track or the slow-link
    signal is set, whatever the scorer and its history: the monitor
    completes, its one scorer call is [streamError(currentSubstream)], and
    if [currentSubstream > 0] it proposes [currentSubstream - 1] on that
    same tick, which is requested unless it is the substream already
    requested; if [currentSubstream] is 0 (or below) it proposes nothing. *)
Theorem unhealthy_tick_downgrades_at_once (c : VideoBox.t H) feed slowLink :
  remoteFeed c = Some feed →
  RemoteFeed.numVideoTracks feed = 0 ∨ slowLink = true →
  let cur := RemoteFeed.currentSubstream feed in
  let o := monitorVideoQuality slowLink c in
  completes o = true
  ∧ videoQualityHelper (final o) = streamError (videoQualityHelper c) cur
  ∧ helperCalls (trace o) = [Helper_streamError cur]
  ∧ proposals (trace o) = (if bool_decide (cur > 0) then [cur - 1] else [])
  ∧ requests (trace o) =
    (if bool_decide (cur > 0)
        && bool_decide (RemoteFeed.requestedSubstream feed ≠ cur - 1)
     then [cur - 1] else []).
Proof.
  intros Hf Hbad. cbv zeta. rewrite (monitor_unhealthy c feed slowLink Hf Hbad).
  project. split_and!; try done.
  - case_bool_decide; [|done]. simpl. f_equal.
    apply (switchTrace_helperCalls c feed).
  - case_bool_decide; [|done]. apply (switchTrace_proposals c feed).
  - case_bool_decide; [|done]. apply (switchTrace_requests c feed).
Qed.

(** ** C8: the switch request *)

Lemma switchSubstream_repeat (c : VideoBox.t H) feed s (n : nat) :
  remoteFeed c = Some feed →
  RemoteFeed.requestedSubstream feed = s →
  requests (trace (sequence_ switchSubstream (replicate n s) c)) = []
  ∧ final (sequence_ switchSubstream (replicate n s) c) = c.
Proof.
  intros Hf Hr. induction n as [|n [IHt IHf]]; [done|]. simpl.
  rewrite bind_eq, (switchSubstream_outcome c feed s Hf). project.
  split; [|done]. rewrite requests_app, IHt, app_nil_r.
  rewrite (switchTrace_requests c feed s).
  rewrite bool_decide_false; [done|]. by intros Hne; apply Hne.
Qed.

(** Every request a tick emits was proposed on that tick and differs from
    the substream last requested for the feed. *)
Lemma tick_requests (tk : Tick) (c : VideoBox.t H) s :
  s ∈ requests (trace (tick tk c)) →
  s ≠ RemoteFeed.requestedSubstream tk.1 ∧ s ∈ proposals (trace (tick tk c)).
Proof.
  rewrite tick_eq. set (c1 := set_remoteFeed (Some tk.1) c).
  destruct (healthy tk) eqn:Hh.
  - apply healthy_spec in Hh as [Hn Hs].
    rewrite (monitor_healthy c1 tk.1 tk.2 eq_refl Hn Hs). cbv zeta.
    case_bool_decide; project; [|by intros ?%elem_of_nil].
    change (requests (?a :: ?b :: ?l)) with (requests l).
    change (proposals (?a :: ?b :: ?l)) with (proposals l).
    rewrite switchTrace_requests, switchTrace_proposals.
    case_bool_decide; [|by intros ?%elem_of_nil].
    intros ->%list_elem_of_singleton. split; [done|]. by apply list_elem_of_singleton.
  - apply unhealthy_spec in Hh.
    rewrite (monitor_unhealthy c1 tk.1 tk.2 eq_refl Hh). cbv zeta. project.
    change (requests (?a :: ?l)) with (requests l).
    change (proposals (?a :: ?l)) with (proposals l).
    case_bool_decide; [|by intros ?%elem_of_nil].
    rewrite switchTrace_requests, switchTrace_proposals.
    case_bool_decide; [|by intros ?%elem_of_nil].
    intros ->%list_elem_of_singleton. split; [done|]. by apply list_elem_of_singleton.
Qed.

(** C8. A proposed switch, that is a call of [switchSubstream], emits the
    request event iff the proposed substream differs from the feed's
    [requestedSubstream]; it changes nothing in the component, so proposing
    the requested value again, any number of times, emits nothing; and a
    request emitted by a tick always differs from [requestedSubstream]. *)
Theorem switch_emitted_iff_not_requested (c : VideoBox.t H) feed substreamId :
  remoteFeed c = Some feed →
  let o := switchSubstream substreamId c in
  completes o = true
  ∧ final o = c
  ∧ (Emit_requestSubstream feed substreamId ∈ trace o
     ↔ RemoteFeed.requestedSubstream feed ≠ substreamId)
  ∧ requests (trace o) =
    (if bool_decide (RemoteFeed.requestedSubstream feed ≠ substreamId)
     then [substreamId] else [])
  ∧ (RemoteFeed.requestedSubstream feed = substreamId →
     ∀ n : nat,
       requests (trace (sequence_ switchSubstream (replicate n substreamId) c)) = [])
  ∧ (∀ (tk : Tick) (c0 : VideoBox.t H) s,
       s ∈ requests (trace (tick tk c0)) → s ≠ RemoteFeed.requestedSubstream tk.1).
Proof.
  intros Hf. cbv zeta. rewrite (switchSubstream_outcome c feed substreamId Hf).
  project. split_and!; try done.
  - unfold switchTrace. case_bool_decide as Hr.
    + split; [done|]. intros _. set_solver.
    + split; [|done]. intros Hin.
      apply list_elem_of_singleton in Hin. discriminate Hin.
  - apply switchTrace_requests.
  - intros Hr n. by apply (switchSubstream_repeat c feed).
  - intros tk c0 s Hin. by apply (tick_requests tk c0).
Qed.

End VideoBoxFacts.

(** ** C7: the scorer and upgrades *)

Section ScorerFacts.
Import VideoBox.
Variable N : nat.

Local Abbreviation tickN := (tick (helperOps := Scorer.helper N)).
Local Abbreviation runTicksN := (runTicks (helperOps := Scorer.helper N)).
Local Abbreviation fresh := (constructor (helperOps := Scorer.helper N)).
Local Abbreviation cur tk := (RemoteFeed.currentSubstream (fst tk)).

Lemma streak_recent (layer : Z) (rev_tks : list Tick) (n : nat) :
  (n ≤ Scorer.streak layer rev_tks)%nat →
  (n ≤ length rev_tks)%nat
  ∧ Forall (λ tk : Tick, healthy tk = true ∧ cur tk = layer) (take n rev_tks).
Proof.
  revert n. induction rev_tks as [|tk l IH]; intros n Hn; simpl in *.
  - assert (n = 0%nat) as -> by lia. done.
  - destruct n as [|n]; [split; [lia|constructor]|].
    destruct (healthy tk) eqn:Hh; simpl in Hn; [|lia].
    case_bool_decide as Hc; [|lia].
    destruct (IH n) as [Hlen Hall]; [lia|].
    split; [lia|]. simpl. by constructor.
Qed.

Lemma streak_le_length (layer : Z) (rev_tks : list Tick) :
  (Scorer.streak layer rev_tks ≤ length rev_tks)%nat.
Proof.
  induction rev_tks as [|tk l IH]; simpl; [lia|].
  destruct (healthy tk && _); lia.
Qed.

(** One tick keeps the count of healthy pings below the number of healthy
    ticks just seen on the scorer's layer, and proposes an upgrade only when
    that number has reached [N]. *)
Lemma tick_keeps_streak (rev_tks : list Tick) (c : VideoBox.t Scorer.t) (tk : Tick) :
  let h := videoQualityHelper c in
  (Scorer.healthyPings h ≤ Scorer.streak (Scorer.layer h) rev_tks)%nat →
  Scorer.needed h = N →
  let o := tickN tk c in
  let h' := videoQualityHelper (final o) in
  completion o = Normal tt
  ∧ (Scorer.healthyPings h' ≤ Scorer.streak (Scorer.layer h') (tk :: rev_tks))%nat
  ∧ Scorer.needed h' = N
  ∧ Scorer.cap h' = Scorer.cap h
  ∧ (proposesAbove (cur tk) (trace o) = true →
       healthy tk = true
       ∧ (N ≤ Scorer.streak (cur tk) (tk :: rev_tks))%nat
       ∧ proposals (trace o) = [cur tk + 1]
       ∧ cur tk + 1 < Scorer.cap h).
Proof.
  intros h Hinv Hneed. cbv zeta. rewrite tick_eq.
  set (c1 := set_remoteFeed (Some tk.1) c).
  destruct (healthy tk) eqn:Hh.
  - pose proof Hh as [Hn Hs]%healthy_spec.
    rewrite (monitor_healthy c1 tk.1 tk.2 eq_refl Hn Hs). cbv zeta.
    simpl ping. simpl streamEnd. unfold Scorer.ping. fold h.
    assert (∀ layer, Scorer.streak layer (tk :: rev_tks) =
              if bool_decide (cur tk = layer)
              then S (Scorer.streak layer rev_tks) else 0%nat) as Hstreak.
    { intros layer. simpl. by rewrite Hh. }
    destruct (bool_decide (Scorer.needed h ≤ _)%nat && _) eqn:Hup; cbn [fst snd].
    + rewrite bool_decide_true by lia. project.
      apply andb_true_iff in Hup as [Hge Hcap].
      apply bool_decide_eq_true in Hge, Hcap.
      split_and!; try done; [simpl; lia|]. intros _.
      split_and!; try done.
      * rewrite Hstreak, (bool_decide_true (cur tk = cur tk)) by done.
        rewrite <- Hneed. etrans; [exact Hge|].
        destruct (decide (Scorer.layer h = cur tk)) as [Hl|Hl];
          [ rewrite (bool_decide_true (Scorer.layer h = _)) by done; rewrite <- Hl; lia
          | rewrite (bool_decide_false (Scorer.layer h = _)) by done; lia ].
      * apply (switchTrace_proposals c1).
    + rewrite bool_decide_false by lia. project.
      split_and!; try done. cbn [videoQualityHelper set_videoQualityHelper
        Scorer.layer Scorer.healthyPings].
      rewrite Hstreak, (bool_decide_true (cur tk = cur tk)) by done.
      destruct (decide (Scorer.layer h = cur tk)) as [Hl|Hl];
        [ rewrite (bool_decide_true (Scorer.layer h = _)) by done; rewrite <- Hl; lia
        | rewrite (bool_decide_false (Scorer.layer h = _)) by done; lia ].
  - pose proof Hh as Hbad%unhealthy_spec.
    rewrite (monitor_unhealthy c1 tk.1 tk.2 eq_refl Hbad). cbv zeta. project.
    split_and!; try done; simpl; [lia|].
    case_bool_decide; [|done]. unfold switchTrace. simpl.
    rewrite bool_decide_false by lia. by case_bool_decide.
Qed.

Lemma runTicks_keeps_streak (tks pre : list Tick) (c : VideoBox.t Scorer.t) :
  let h := videoQualityHelper c in
  (Scorer.healthyPings h ≤ Scorer.streak (Scorer.layer h) pre)%nat →
  Scorer.needed h = N →
  let o := runTicksN tks c in
  let h' := videoQualityHelper (final o) in
  completion o = Normal tt
  ∧ (Scorer.healthyPings h' ≤ Scorer.streak (Scorer.layer h') (rev tks ++ pre))%nat
  ∧ Scorer.needed h' = N
  ∧ Scorer.cap h' = Scorer.cap h.
Proof.
  cbv zeta. revert pre c. induction tks as [|tk tks IH]; intros pre c Hinv Hneed.
  - done.
  - destruct (tick_keeps_streak pre c tk Hinv Hneed) as (Hc & Hinv' & Hneed' & Hcap & _).
    unfold runTicks in *. cbn [sequence_]. rewrite bind_eq, Hc. project.
    destruct (IH (tk :: pre) _ Hinv' Hneed') as (Hc2 & Hinv2 & Hneed2 & Hcap2).
    cbn [rev]. rewrite <- app_assoc.
    split_and!; [done|exact Hinv2|done|by rewrite Hcap2].
Qed.

(** The count the scorer reaches with a healthy ping on [layer], when any
    ping it has counted so far was on that layer. *)
Lemma ping_count (h : Scorer.t) (layer : Z) :
  (0 < Scorer.healthyPings h → Scorer.layer h = layer)%nat →
  S (if bool_decide (Scorer.layer h = layer) then Scorer.healthyPings h else 0%nat)
  = S (Scorer.healthyPings h).
Proof.
  intros Hl. case_bool_decide as Hne; [done|].
  destruct (Scorer.healthyPings h); [done|]. exfalso. apply Hne, Hl. lia.
Qed.

(** A healthy tick that does not complete the run of [N] only counts. *)
Lemma tick_counts (tk : Tick) (c : VideoBox.t Scorer.t) :
  let h := videoQualityHelper c in
  healthy tk = true →
  Scorer.needed h = N →
  (0 < Scorer.healthyPings h → Scorer.layer h = cur tk)%nat →
  (S (Scorer.healthyPings h) < N)%nat →
  tickN tk c =
  MkOutcome
    (set_videoQualityHelper
       (Scorer.Mk (Scorer.cap h) N (cur tk) (S (Scorer.healthyPings h)) (Scorer.errors h))
       (set_remoteFeed (Some tk.1) c))
    [Helper_ping (cur tk)] (Normal tt).
Proof.
  intros h Hh Hneed Hl Hlt. rewrite tick_eq.
  pose proof Hh as [Hn Hs]%healthy_spec.
  set (c1 := set_remoteFeed (Some tk.1) c).
  rewrite (monitor_healthy c1 tk.1 tk.2 eq_refl Hn Hs). cbv zeta. simpl ping.
  fold h. unfold Scorer.ping. rewrite (ping_count h (cur tk) Hl), Hneed.
  rewrite (bool_decide_false (N ≤ _)%nat) by lia.
  cbn [andb fst snd]. by rewrite bool_decide_false by lia.
Qed.

(** A run of healthy ticks on one layer, shorter than [N], only counts. *)
Lemma runTicks_counts (tks : list Tick) (layer : Z) (c : VideoBox.t Scorer.t) :
  let h := videoQualityHelper c in
  Forall (λ tk : Tick, healthy tk = true ∧ cur tk = layer) tks →
  Scorer.needed h = N →
  (0 < Scorer.healthyPings h → Scorer.layer h = layer)%nat →
  (Scorer.healthyPings h + length tks < N)%nat →
  let o := runTicksN tks c in
  let h' := videoQualityHelper (final o) in
  completion o = Normal tt
  ∧ proposals (trace o) = []
  ∧ Scorer.healthyPings h' = (Scorer.healthyPings h + length tks)%nat
  ∧ (0 < Scorer.healthyPings h' → Scorer.layer h' = layer)%nat
  ∧ Scorer.needed h' = N
  ∧ Scorer.cap h' = Scorer.cap h.
Proof.
  cbv zeta. revert c. induction tks as [|tk tks IH]; intros c Hall Hneed Hlayer Hlt.
  - simpl. split_and!; try done; lia.
  - apply Forall_cons in Hall as [[Hh Hc] Hall]. simpl in Hlt.
    unfold runTicks in *. cbn [sequence_].
    rewrite bind_eq, tick_counts; [|done|done|by rewrite Hc|lia]. project.
    match goal with |- context [sequence_ _ tks ?c'] =>
      destruct (IH c') as (Hc2 & Hp2 & Hcnt & Hl2 & Hn2 & Hcap2) end;
      [done|done|by intros _; simpl|simpl; lia|].
    rewrite Hc2. split_and!; try done.
    rewrite Hcnt. simpl. lia.
Qed.

(** C7. With the scorer of section 4.3 in the video box, whatever the number
    [N] of healthy pings it asks for:
    - a tick proposes a layer above the current one only if it is healthy
      and the [N] most recent ticks, this one included, were all healthy on
      that same layer; the layer proposed is the next one and lies below the
      cap of 3 the component sets;
    - on a healthy tick the proposal is the scorer's candidate if that is
      strictly greater than [currentSubstream], and there is none otherwise;
    - [N] consecutive healthy ticks on a layer below the highest propose the
      next layer on the last of them and not before: for [N = 3], two
      healthy ticks followed by an unhealthy one propose no upgrade, and
      three healthy ticks on layer 0 propose layer 1. *)
Theorem upgrade_needs_consecutive_healthy_ticks :
  (∀ (tks : list Tick) (tk : Tick),
     proposesAbove (cur tk) (trace (tickN tk (final (runTicksN tks fresh)))) = true →
     healthy tk = true
     ∧ (N ≤ length (tk :: rev tks))%nat
     ∧ Forall (λ tk' : Tick, healthy tk' = true ∧ cur tk' = cur tk)
         (take N (tk :: rev tks))
     ∧ proposals (trace (tickN tk (final (runTicksN tks fresh)))) = [cur tk + 1]
     ∧ cur tk + 1 < 3)
  ∧ (∀ (c : VideoBox.t Scorer.t) (tk : Tick),
       healthy tk = true →
       let candidate := (Scorer.ping (videoQualityHelper c) (cur tk)).2 in
       proposals (trace (tickN tk c)) =
         (if bool_decide (candidate > cur tk) then [candidate] else [])
       ∧ proposesAbove (cur tk) (trace (tickN tk c)) = bool_decide (candidate > cur tk))
  ∧ (∀ (tks : list Tick) (tk : Tick) (layer : Z),
       Forall (λ tk' : Tick, healthy tk' = true ∧ cur tk' = layer) (tks ++ [tk]) →
       length (tks ++ [tk]) = N →
       layer + 1 < 3 →
       proposals (trace (runTicksN tks fresh)) = []
       ∧ proposals (trace (tickN tk (final (runTicksN tks fresh)))) = [layer + 1])
  ∧ (N = 3%nat →
     ∀ t1 t2 t3 : Tick,
       healthy t1 = true → healthy t2 = true → healthy t3 = false →
       upgradeProposed (helperOps := Scorer.helper N) [t1; t2; t3] fresh = false).
Proof.
  assert (∀ (tks : list Tick) (tk : Tick),
     proposesAbove (cur tk) (trace (tickN tk (final (runTicksN tks fresh)))) = true →
     healthy tk = true
     ∧ (N ≤ Scorer.streak (cur tk) (tk :: rev tks))%nat
     ∧ proposals (trace (tickN tk (final (runTicksN tks fresh)))) = [cur tk + 1]
     ∧ cur tk + 1 < 3) as Hstreak.
  { intros tks tk Hup.
    destruct (runTicks_keeps_streak tks [] fresh) as (_ & Hinv & Hneed & Hcap);
      [simpl; lia|done|].
    rewrite app_nil_r in Hinv.
    destruct (tick_keeps_streak (rev tks) _ tk Hinv Hneed) as (_ & _ & _ & _ & Hprop).
    destruct (Hprop Hup) as (Hh & Hn & Hp & Hc). by rewrite Hcap in Hc. }
  split_and!.
  - intros tks tk Hup.
    destruct (Hstreak tks tk Hup) as (Hh & Hn & Hp & Hc).
    destruct (streak_recent _ _ _ Hn) as [Hlen Hall]. done.
  - intros c tk Hh. cbv zeta. rewrite tick_eq.
    pose proof Hh as [Hn Hs]%healthy_spec.
    set (c1 := set_remoteFeed (Some tk.1) c).
    rewrite (monitor_healthy c1 tk.1 tk.2 eq_refl Hn Hs). cbv zeta. simpl ping.
    change (videoQualityHelper c1) with (videoQualityHelper c).
    case_bool_decide as Hgt; project; [|done].
    split.
    + apply (switchTrace_proposals _ tk.1).
    + unfold switchTrace. simpl. by rewrite bool_decide_true by done.
  - intros tks tk layer Hall Hlen Hlt.
    apply Forall_app in Hall as [Hall Htk].
    apply Forall_singleton in Htk as [Hh Hc].
    rewrite length_app in Hlen. simpl in Hlen.
    destruct (runTicks_counts tks layer fresh)
      as (_ & Hp & Hcnt & Hl & Hneed & Hcap);
      [done|done|simpl; lia|simpl; lia|].
    split; [done|]. rewrite tick_eq.
    pose proof Hh as [Hn Hs]%healthy_spec.
    set (c := final (runTicksN tks fresh)) in *.
    set (c1 := set_remoteFeed (Some tk.1) c).
    rewrite (monitor_healthy c1 tk.1 tk.2 eq_refl Hn Hs). cbv zeta. simpl ping.
    change (videoQualityHelper c1) with (videoQualityHelper c).
    unfold Scorer.ping. rewrite Hc, Hcnt, Hneed, Hcap. simpl Scorer.healthyPings.
    simpl Scorer.cap.
    assert (S (if bool_decide (Scorer.layer (videoQualityHelper c) = layer)
               then (0 + length tks)%nat else 0%nat) = N) as ->.
    { case_bool_decide as Hne; [lia|].
      destruct (length tks) eqn:Hz; [simpl; lia|].
      exfalso. apply Hne, Hl. rewrite Hcnt. simpl. lia. }
    rewrite (bool_decide_true (N ≤ N)%nat), (bool_decide_true (layer + 1 < 3)) by lia.
    cbn [andb fst snd]. rewrite bool_decide_true by lia. project.
    apply (switchTrace_proposals _ tk.1).
  - intros HN t1 t2 t3 H1 H2 H3. cbn [upgradeProposed].
    destruct (tick_keeps_streak [] fresh t1)
      as (_ & Hinv1 & Hneed1 & _ & Hprop1); [simpl; lia|done|].
    destruct (tick_keeps_streak [t1] _ t2 Hinv1 Hneed1)
      as (_ & Hinv2 & Hneed2 & _ & Hprop2).
    destruct (tick_keeps_streak [t2; t1] _ t3 Hinv2 Hneed2)
      as (_ & _ & _ & _ & Hprop3).
    destruct (proposesAbove (cur t1) _).
    { destruct (Hprop1 eq_refl) as (_ & Hn & _).
      pose proof (streak_le_length (cur t1) [t1]). simpl length in *. lia. }
    destruct (proposesAbove (cur t2) _).
    { destruct (Hprop2 eq_refl) as (_ & Hn & _).
      pose proof (streak_le_length (cur t2) [t2; t1]). simpl length in *. lia. }
    destruct (proposesAbove (cur t3) _); [|done].
    destruct (Hprop3 eq_refl) as (Hh & _). congruence.
Qed.

End ScorerFacts.

(** ** The video box on concrete ticks *)

Section VideoBoxExamples.
Import VideoBox Sample.

(** A feed on substream 2 without video: the next tick proposes, and
    requests, substream 1. *)
Lemma unhealthy_tick_downgrades_at_once_witness :
  remoteFeed (box stalled) = Some stalled
  ∧ proposals (trace (@monitorVideoQuality _ (Scorer.helper 3) false
                        (box stalled))) = [1].
Proof.
  split; [reflexivity|].
  pose proof (@unhealthy_tick_downgrades_at_once _ (Scorer.helper 3)
    (box stalled) stalled false eq_refl (or_introl eq_refl)) as (_ & _ & _ & Hp & _).
  exact Hp.
Defined.

Lemma stalled_feed_trace :
  trace (tick (helperOps := Scorer.helper 3) (stalled, false) (box stalled))
  = [ Helper_streamError 2; Call_switchSubstream 1;
      Console_log 1 EmptyString; Emit_requestSubstream stalled 1 ].
Proof. vm_compute. reflexivity. Qed.

(** While that switch is in flight the proposal is made again on every
    tick, and no further request is emitted, although substream 1 is not the
    current one. *)
Lemma switch_emitted_iff_not_requested_witness :
  remoteFeed (box switching) = Some switching
  ∧ requests (trace (switchSubstream 1 (box switching))) = [].
Proof.
  split; [reflexivity|].
  pose proof (@switch_emitted_iff_not_requested _ (Scorer.helper 3)
    (box switching) switching 1 eq_refl) as (_ & _ & _ & Hr & _).
  exact Hr.
Defined.

Lemma switch_in_flight_trace :
  trace (runTicks (helperOps := Scorer.helper 3)
           [(switching, false); (switching, false)] (box stalled))
  = [ Helper_streamError 2; Call_switchSubstream 1;
      Helper_streamError 2; Call_switchSubstream 1 ].
Proof. vm_compute. reflexivity. Qed.

(** Three healthy ticks on substream 0 propose substream 1 on the third. *)
Lemma upgrade_needs_consecutive_healthy_ticks_witness :
  proposals (trace (runTicks (helperOps := Scorer.helper 3)
                      [(playing, false); (playing, false)] (box playing))) = []
  ∧ proposals (trace (tick (helperOps := Scorer.helper 3) (playing, false)
       (final (runTicks (helperOps := Scorer.helper 3)
                 [(playing, false); (playing, false)] (box playing)))))
    = [1].
Proof.
  refine (proj1 (proj2 (proj2 (upgrade_needs_consecutive_healthy_ticks 3)))
    [(playing, false); (playing, false)] (playing, false) 0 _ _ _).
  - repeat constructor.
  - reflexivity.
  - reflexivity.
Defined.

Lemma three_healthy_ticks_trace :
  trace (runTicks (helperOps := Scorer.helper 3)
           [(playing, false); (playing, false); (playing, false)] (box playing))
  = [ Helper_ping 0; Helper_ping 0; Helper_ping 0; Helper_streamEnd 0;
      Call_switchSubstream 1; Console_log 1 EmptyString;
      Emit_requestSubstream playing 1 ].
Proof. vm_compute. reflexivity. Qed.

End VideoBoxExamples.

(** * Further properties of the components *)

(** ** Runs of the room component *)

Section VideoroomRuns.
Import JanusVideoroom JanusVideoroomRuns.
Variable JanusErrors : gmap Z JanusError.

Lemma run_cons ev evs c :
  run JanusErrors (ev :: evs) c =
  match completion (react JanusErrors ev c) with
  | Normal _ =>
      MkOutcome (final (run JanusErrors evs (final (react JanusErrors ev c))))
        (trace (react JanusErrors ev c)
           ++ trace (run JanusErrors evs (final (react JanusErrors ev c))))
        (completion (run JanusErrors evs (final (react JanusErrors ev c))))
  | Throw err =>
      MkOutcome (final (react JanusErrors ev c)) (trace (react JanusErrors ev c))
        (Throw err)
  end.
Proof. unfold run. cbn [sequence_]. by rewrite bind_eq. Qed.

(** What the [switch] does to the server url, the timers and the store. *)
Lemma stateAction_shape roomInfo c :
  let o := stateAction roomInfo c in
  (final o = c ∧ timersSet (trace o) = []
   ∧ (attachCalls (trace o) = [] ∨ attachCalls (trace o) = [janusServerUrl c]))
  ∨ (janusServerUrl c ≠ httpUrl c
     ∧ final o = set_timers (timers c ++ [Build_Timer RetryAttach 100])
                   (set_janusServerUrl (httpUrl c) c)
     ∧ timersSet (trace o) = [(RetryAttach, 100)]
     ∧ attachCalls (trace o) = []).
Proof.
  cbv zeta. unfold stateAction, setTimeout. unfold_handler. simpl.
  destruct (RoomInfo.state roomInfo); simpl; try (left; split_and!; by eauto).
  case_bool_decide as Hne; simpl.
  - right. by split_and!.
  - left. split_and!; by eauto.
Qed.

(** The subscriber either leaves the component as it is and touches neither
    timers nor attach (it threw), or does what the [switch] does. *)
Lemma onState_shape roomInfo remoteFeeds c :
  let o := onState JanusErrors roomInfo remoteFeeds c in
  (final o = c ∧ timersSet (trace o) = [] ∧ attachCalls (trace o) = [])
  ∨ (final o = final (stateAction roomInfo c)
     ∧ timersSet (trace o) = timersSet (trace (stateAction roomInfo c))
     ∧ attachCalls (trace o) = attachCalls (trace (stateAction roomInfo c))).
Proof.
  cbv zeta. rewrite onState_outcome. cbv zeta.
  rewrite reconcileMute_outcome, reportPublishError_outcome. project.
  assert (∀ b : bool,
    timersSet (if b then [Store_setMute (muted c)] else []) = []
    ∧ attachCalls (if b then [Store_setMute (muted c)] else []) = [])
    as Hmute by (by intros []).
  case_bool_decide as Hp.
  - destruct (_ ≫= _) as [row|]; project.
    + right. unfold timersSet, attachCalls in *.
      rewrite !omap_app. rewrite (proj1 (Hmute _)), (proj2 (Hmute _)). done.
    + left. split_and!; [done|apply Hmute..].
  - project. right. unfold timersSet, attachCalls in *.
    rewrite !omap_app. rewrite (proj1 (Hmute _)), (proj2 (Hmute _)). done.
Qed.

Lemma ngOnChanges_outcome changes c :
  ngOnChanges changes c =
  if resets changes
  then MkOutcome (set_janusServerUrl (pickServerUrl c) c)
         [Store_reset (iceServers c)] (Normal tt)
  else MkOutcome c [] (Normal tt).
Proof. unfold ngOnChanges, resets. apply ngOnChanges_loop_outcome. Qed.

Lemma fireTimer_outcome c :
  fireTimer c =
  match timers c with
  | [] => MkOutcome c [] (Normal tt)
  | tm :: rest =>
      MkOutcome (set_timers rest c) [Store_attachVideoRoom (janusServerUrl c)]
        (Normal tt)
  end.
Proof.
  unfold fireTimer, runCallback. unfold_handler. simpl.
  destruct (timers c) as [|[[] ?] rest]; done.
Qed.

(** X1. [ngOnChanges] resets the session exactly once when at least one of
    the nine reset keys is among the changes with [firstChange] false,
    however many of them changed: it then picks the server url from the
    inputs again and calls [janusStore.reset(iceServers)].  In every other
    case, a first change or a change of other inputs only, it does
    nothing. *)
Theorem ngOnChanges_resets_once (changes : gmap string SimpleChange) c :
  let o := ngOnChanges changes c in
  completes o = true
  ∧ ((∃ key ch, key ∈ resetKeys ∧ changes !! key = Some ch ∧ firstChange ch = false)
     → trace o = [Store_reset (iceServers c)]
       ∧ final o = set_janusServerUrl (pickServerUrl c) c)
  ∧ ((∀ key ch, key ∈ resetKeys → changes !! key = Some ch → firstChange ch = true)
     → trace o = [] ∧ final o = c).
Proof.
  cbv zeta. rewrite ngOnChanges_outcome. unfold resets.
  split_and!.
  - by destruct (existsb _ _).
  - intros (key & ch & Hin & Hch & Hfirst).
    assert (existsb (λ key, match changes !! key with
                            | Some ch => negb (firstChange ch)
                            | None => false
                            end) resetKeys = true) as ->; [|done].
    apply existsb_exists. exists key. split.
    + by apply list_elem_of_In.
    + by rewrite Hch, Hfirst.
  - intros Hall.
    assert (existsb (λ key, match changes !! key with
                            | Some ch => negb (firstChange ch)
                            | None => false
                            end) resetKeys = false) as ->; [|done].
    apply not_true_is_false. intros (key & Hin & Hk)%existsb_exists.
    apply list_elem_of_In in Hin.
    destruct (changes !! key) as [ch|] eqn:Hch; [|done].
    rewrite (Hall key ch Hin Hch) in Hk. done.
Qed.

End VideoroomRuns.

(** ** The room component in its host *)

Section VideoroomHost.
Import JanusVideoroom JanusVideoroomHost.
Variable JanusErrors : gmap Z JanusError.
Variable unsubscribesOnError : bool.

Local Abbreviation emit := (emit JanusErrors unsubscribesOnError).
Local Abbreviation step := (step JanusErrors unsubscribesOnError).
Local Abbreviation play := (play JanusErrors unsubscribesOnError).

(** The urls the component holds are among [urls]. *)
Local Abbreviation known urls c :=
  (janusServerUrl c ∈ urls ∧ wsUrl c ∈ urls ∧ httpUrl c ∈ urls).

Lemma play_cons ev evs w :
  play (ev :: evs) w =
  ((play evs (step ev w).1).1, (step ev w).2 ++ (play evs (step ev w).1).2).
Proof. done. Qed.

Lemma urlsBound_cons ev evs :
  urlsBound (ev :: evs) = urlsBound [ev] ++ urlsBound evs.
Proof. destruct ev; simpl; try done. by rewrite app_nil_r. Qed.

(** One run of the subscriber: the url inputs are not written, the server
    url changes to [httpUrl] if at all, an attach goes to the server url,
    and a timer uses up the retry. *)
Lemma onState_urls roomInfo remoteFeeds c :
  let o := onState JanusErrors roomInfo remoteFeeds c in
  wsUrl (final o) = wsUrl c
  ∧ httpUrl (final o) = httpUrl c
  ∧ (janusServerUrl (final o) = janusServerUrl c
     ∨ janusServerUrl (final o) = httpUrl c)
  ∧ (attachCalls (trace o) = [] ∨ attachCalls (trace o) = [janusServerUrl c])
  ∧ (length (timersSet (trace o)) + retriesLeft (final o) ≤ retriesLeft c)%nat.
Proof.
  cbv zeta. unfold retriesLeft.
  destruct (onState_shape JanusErrors roomInfo remoteFeeds c)
    as [(-> & -> & ->)|(-> & -> & ->)].
  { split_and!; first [done | by left | simpl; lia]. }
  destruct (stateAction_shape roomInfo c) as [(-> & -> & Ha)|(Hne & -> & -> & ->)].
  - split_and!; first [done | by left | simpl; lia].
  - split_and!; [done|done|by right|by left|]. simpl.
    rewrite bool_decide_false by (by intros Hn; apply Hn).
    rewrite bool_decide_true by done. lia.
Qed.

Lemma emit_urls roomInfo remoteFeeds n c :
  let r := emit roomInfo remoteFeeds n c in
  wsUrl r.1.1 = wsUrl c
  ∧ httpUrl r.1.1 = httpUrl c
  ∧ (janusServerUrl r.1.1 = janusServerUrl c ∨ janusServerUrl r.1.1 = httpUrl c)
  ∧ Forall (λ url, url = janusServerUrl c ∨ url = httpUrl c) (attachCalls r.2)
  ∧ (length (timersSet r.2) + retriesLeft r.1.1 ≤ retriesLeft c)%nat.
Proof.
  cbv zeta. revert c. induction n as [|n IH]; intros c.
  { simpl. split_and!; first [done | by left | constructor | lia]. }
  cbn [JanusVideoroomHost.emit fst snd].
  destruct (onState_urls roomInfo remoteFeeds c) as (Hw & Hh & Hurl & Hatt & Hnow).
  destruct (IH (final (onState JanusErrors roomInfo remoteFeeds c)))
    as (Hw' & Hh' & Hurl' & Hatt' & Hlater).
  rewrite Hw', Hh', Hw, Hh. split_and!; [done|done| | |].
  - rewrite Hh in Hurl'. destruct Hurl' as [->| ->]; [done|by right].
  - unfold attachCalls in *. rewrite omap_app. apply Forall_app. split.
    + destruct Hatt as [->| ->]; [constructor|]. apply Forall_singleton. by left.
    + rewrite Hh in Hatt'. eapply Forall_impl; [exact Hatt'|].
      intros url [->| ->]; [|by right]. done.
  - unfold timersSet in *. rewrite omap_app, length_app. lia.
Qed.

(** Binding inputs writes neither the server url nor the timers. *)
Lemma bindInput_urls bindings c :
  let c' := foldl bindInput c bindings in
  janusServerUrl c' = janusServerUrl c
  ∧ (existsb rebindsHttpUrl bindings = false → httpUrl c' = httpUrl c)
  ∧ (wsUrl c' = wsUrl c ∨ wsUrl c' ∈ omap boundUrl bindings)
  ∧ (httpUrl c' = httpUrl c ∨ httpUrl c' ∈ omap boundUrl bindings).
Proof.
  cbv zeta. revert c. induction bindings as [|b bindings IH]; intros c.
  { simpl. split_and!; first [done | by left]. }
  cbn [foldl]. destruct (IH (bindInput c b)) as (Hj & Hh & Hws & Hhttp).
  rewrite Hj. split_and!.
  - by destruct b.
  - cbn [existsb]. intros [Hb Hrest]%orb_false_iff. rewrite (Hh Hrest).
    by destruct b.
  - destruct Hws as [->|Hin].
    + destruct b; simpl; try (by left). right. apply elem_of_cons. by left.
    + right. destruct b; simpl; try done; apply elem_of_cons; by right.
  - destruct Hhttp as [->|Hin].
    + destruct b; simpl; try (by left). right. apply elem_of_cons. by left.
    + right. destruct b; simpl; try done; apply elem_of_cons; by right.
Qed.

(** What one event does to the retries left. *)
Lemma step_retries ev w :
  (length (timersSet (step ev w).2) + retriesLeft (self (step ev w).1)
   ≤ retriesLeft (self w) + (if renews ev then 1 else 0))%nat.
Proof.
  destruct ev as [| |roomInfo remoteFeeds| | |bindings changes|m];
    cbn [JanusVideoroomHost.step renews fst snd self].
  - unfold ngOnInit_start, retriesLeft. unfold_handler. simpl.
    repeat case_bool_decide; simpl; lia.
  - unfold setupJanusRoom, retriesLeft. unfold_handler. simpl. lia.
  - destruct (emit_urls roomInfo remoteFeeds (live w) (self w))
      as (_ & _ & _ & _ & Hle). lia.
  - rewrite fireTimer_outcome. destruct (timers (self w)); project; simpl.
    + lia.
    + unfold retriesLeft. simpl. lia.
  - destruct (destroyed w); simpl; [lia|]. unfold retriesLeft. simpl. lia.
  - rewrite ngOnChanges_outcome.
    destruct (bindInput_urls bindings (self w)) as (Hj & Hh & _ & _).
    destruct (resets changes) eqn:Hr.
    + project. unfold retriesLeft. simpl. repeat case_bool_decide; simpl; lia.
    + project. simpl. unfold retriesLeft. rewrite Hj.
      destruct (existsb rebindsHttpUrl bindings).
      * repeat case_bool_decide; lia.
      * rewrite (Hh eq_refl). lia.
  - unfold set_isMuted, _setMuted, retriesLeft. unfold_handler. simpl. lia.
Qed.

(** What one event does to the urls: an attach goes to a url the component
    holds, and the urls it holds afterwards are those it held and those
    bound by the event. *)
Lemma step_urls ev w urls :
  known urls (self w) →
  known (urls ++ urlsBound [ev]) (self (step ev w).1)
  ∧ Forall (λ url, url ∈ urls) (attachCalls (step ev w).2).
Proof.
  intros (Hj & Hw & Hh).
  destruct ev as [| |roomInfo remoteFeeds| | |bindings changes|m];
    cbn [JanusVideoroomHost.step urlsBound fst snd self];
    rewrite ?app_nil_r.
  - unfold ngOnInit_start. unfold_handler. simpl. split; [|constructor].
    split_and!; [|done..]. unfold pickServerUrl. by destruct (truthy _).
  - unfold setupJanusRoom. unfold_handler. simpl. split; [done|constructor].
  - destruct (emit_urls roomInfo remoteFeeds (live w) (self w))
      as (-> & -> & Hurl & Hatt & _).
    split.
    + split_and!; [|done..]. by destruct Hurl as [->| ->].
    + eapply Forall_impl; [exact Hatt|]. by intros url [->| ->].
  - rewrite fireTimer_outcome. destruct (timers (self w)); project; simpl.
    + split; [done|constructor].
    + split; [done|]. by apply Forall_singleton.
  - destruct (destroyed w); simpl; (split; [done|constructor]).
  - rewrite ngOnChanges_outcome.
    destruct (bindInput_urls bindings (self w)) as (Hj' & _ & Hws & Hhttp).
    assert (wsUrl (foldl bindInput (self w) bindings)
              ∈ urls ++ omap boundUrl bindings) as Hw'.
    { apply elem_of_app. destruct Hws as [->|Hin]; [by left|by right]. }
    assert (httpUrl (foldl bindInput (self w) bindings)
              ∈ urls ++ omap boundUrl bindings) as Hh'.
    { apply elem_of_app. destruct Hhttp as [->|Hin]; [by left|by right]. }
    destruct (resets changes); project; simpl; (split; [|constructor]).
    + split_and!; [|done..]. unfold pickServerUrl. by destruct (truthy _).
    + split_and!; [|done..]. rewrite Hj'. apply elem_of_app. by left.
  - unfold set_isMuted, _setMuted. unfold_handler. simpl.
    split; [done|constructor].
Qed.

(** X2. An attach is retried at most once per session.  In every run of the
    component in its host, whatever the emissions, timers, mute changes,
    input bindings and changes of the run, wherever [ngOnInit] starts and
    resumes and [ngOnDestroy] falls, however many subscriptions are live,
    and whether or not the stream library drops a subscriber that threw (the
    run goes on after a throw): the number of retry timers set is at most
    one for the start of the run, if the server url is not [httpUrl] then,
    plus one for every event that recomputes the server url or rebinds
    [httpUrl]. *)
Theorem retry_at_most_once_per_session (evs : list Event) (w : Host) :
  (length (timersSet (play evs w).2) ≤ retriesLeft (self w) + renewals evs)%nat.
Proof.
  revert w. induction evs as [|ev evs IH]; intros w.
  - simpl. lia.
  - rewrite play_cons. cbn [snd].
    pose proof (step_retries ev w) as Hstep.
    specialize (IH (step ev w).1).
    unfold renewals in *. cbn [List.filter].
    unfold timersSet in *. rewrite omap_app, length_app.
    destruct (renews ev); simpl length; lia.
Qed.

(** X3. In every such run, every [attachVideoRoom] call, from the [switch] or
    from a retry timer, is made with the server url the run started with or
    with a value that [wsUrl] or [httpUrl] had at the start or was bound to
    during the run. *)
Theorem attach_only_to_bound_urls (evs : list Event) (w : Host) :
  Forall (λ url, url ∈ janusServerUrl (self w) :: wsUrl (self w)
                        :: httpUrl (self w) :: urlsBound evs)
    (attachCalls (play evs w).2).
Proof.
  assert (∀ evs w urls,
    known urls (self w) →
    Forall (λ url, url ∈ urls ++ urlsBound evs) (attachCalls (play evs w).2))
    as Hgen.
  { clear evs w. induction evs as [|ev evs IH]; intros w urls Hk.
    - constructor.
    - rewrite play_cons. cbn [snd]. rewrite urlsBound_cons.
      destruct (step_urls ev w urls Hk) as [Hk' Hnow].
      unfold attachCalls in *. rewrite omap_app. apply Forall_app. split.
      + eapply Forall_impl; [exact Hnow|]. intros url Hin.
        apply elem_of_app. by left.
      + rewrite app_assoc. by apply IH. }
  apply (Hgen evs w [janusServerUrl (self w); wsUrl (self w); httpUrl (self w)]).
  split_and!; rewrite !elem_of_cons; auto.
Qed.

End VideoroomHost.

Section VideoroomLife.
Import JanusVideoroom JanusVideoroomRuns JanusVideoroomEvents.
Variable JanusErrors : gmap Z JanusError.

Lemma ngOnInit_outcome c :
  ngOnInit c =
  MkOutcome (set_subscribed true (set_janusServerUrl (pickServerUrl c) c))
    [Store_initialize (iceServers c)] (Normal tt).
Proof. done. Qed.

(** The outcome of an emission that is not in publish state [error], for
    the three states the [switch] acts on. *)
Lemma deliver_quiet roomInfo remoteFeeds c :
  subscribed c = true →
  RoomInfo.publishState roomInfo ≠ PublishState.error →
  let o := deliver JanusErrors roomInfo remoteFeeds c in
  completion o = Normal tt
  ∧ final o = final (stateAction roomInfo c)
  ∧ attachCalls (trace o) = attachCalls (trace (stateAction roomInfo c))
  ∧ timersSet (trace o) = timersSet (trace (stateAction roomInfo c))
  ∧ janusErrors (trace o) = janusErrors (trace (stateAction roomInfo c)).
Proof.
  intros Hsub Hp. cbv zeta. rewrite deliver_subscribed by done.
  rewrite onState_no_error by done. project.
  rewrite reconcileMute_outcome, emitRemoteFeeds_outcome. project.
  unfold attachCalls, timersSet, janusErrors. rewrite !omap_app.
  by destruct (bool_decide (RoomInfo.muted roomInfo ≠ muted c) && _).
Qed.

(** X4. The whole fallback, from [ngOnInit]: with a websocket url that
    differs from [httpUrl] and no timer pending, the emissions [initialized],
    [attach_failed], the retry timer elapsing, and [attach_failed] again
    (none in publish state [error]) attach first to [wsUrl], then once to
    [httpUrl], set exactly one timer of 100 ms, and end with exactly one
    error event, the sentinel; no timer is left. *)
Theorem attach_falls_back_once_then_fails c ri1 ri2 ri3 f1 f2 f3 :
  truthy (wsUrl c) = true →
  wsUrl c ≠ httpUrl c →
  timers c = [] →
  RoomInfo.state ri1 = RoomInfoState.initialized →
  RoomInfo.state ri2 = RoomInfoState.attach_failed →
  RoomInfo.state ri3 = RoomInfoState.attach_failed →
  Forall (λ ri, RoomInfo.publishState ri ≠ PublishState.error) [ri1; ri2; ri3] →
  let o := life JanusErrors
             [ StateEmission ri1 f1; StateEmission ri2 f2; TimerElapsed;
               StateEmission ri3 f3 ] c in
  completes o = true
  ∧ attachCalls (trace o) = [wsUrl c; httpUrl c]
  ∧ timersSet (trace o) = [(RetryAttach, 100)]
  ∧ janusErrors (trace o) = [(Some 9999, "Unable to connect to media server")]
  ∧ timers (final o) = [].
Proof.
  intros Hws Hne Htm Hs1 Hs2 Hs3 Hq. cbv zeta.
  apply Forall_cons in Hq as [Hq1 Hq]. apply Forall_cons in Hq as [Hq2 Hq].
  apply Forall_cons in Hq as [Hq3 _].
  unfold life. rewrite bind_eq, ngOnInit_outcome. project.
  set (c0 := set_subscribed true (set_janusServerUrl (pickServerUrl c) c)).
  assert (janusServerUrl c0 = wsUrl c) as Hurl0.
  { simpl. unfold pickServerUrl. by rewrite Hws. }
  (* initialized *)
  rewrite run_cons. cbn [react].
  destruct (deliver_quiet ri1 f1 c0 eq_refl Hq1) as (-> & -> & Ha1 & Ht1 & He1).
  assert (stateAction ri1 c0 =
          MkOutcome c0 [Store_attachVideoRoom (wsUrl c)] (Normal tt)) as Hact1.
  { unfold stateAction. unfold_handler. simpl. rewrite Hs1.
    unfold pickServerUrl. by rewrite Hws. }
  rewrite Hact1 in *. project.
  (* attach_failed on the websocket url *)
  rewrite run_cons. cbn [react].
  destruct (deliver_quiet ri2 f2 c0 eq_refl Hq2) as (-> & -> & Ha2 & Ht2 & He2).
  rewrite (stateAction_attach_failed ri2 c0 Hs2) in *.
  rewrite (bool_decide_true (janusServerUrl c0 ≠ httpUrl c0)) in *
    by (rewrite Hurl0; exact Hne).
  project.
  set (c1 := set_timers _ (set_janusServerUrl (httpUrl c0) c0)) in *.
  (* the timer *)
  rewrite run_cons. cbn [react]. rewrite fireTimer_outcome.
  assert (timers c1 = [Build_Timer RetryAttach 100]) as Htm1.
  { simpl. by rewrite Htm. }
  rewrite Htm1. project.
  set (c2 := set_timers [] c1).
  (* attach_failed on the http url *)
  rewrite run_cons. cbn [react].
  destruct (deliver_quiet ri3 f3 c2 eq_refl Hq3) as (-> & -> & Ha3 & Ht3 & He3).
  rewrite (stateAction_attach_failed ri3 c2 Hs3) in *.
  rewrite (bool_decide_false (janusServerUrl c2 ≠ httpUrl c2)) in *
    by (by intros Hn; apply Hn).
  project.
  unfold completes, attachCalls, timersSet, janusErrors in *. project.
  rewrite !omap_app. rewrite Ha1, Ha2, Ha3, Ht1, Ht2, Ht3, He1, He2, He3.
  done.
Qed.

(** X5. Without a fallback, that is when [wsUrl] is unset or empty or
    equal to [httpUrl]: from [ngOnInit], the emissions [initialized] and
    [attach_failed] (not in publish state [error]) attach once, to
    [httpUrl], set no timer, and the first failure already emits the
    sentinel error. *)
Theorem attach_without_fallback_fails_at_once c ri1 ri2 f1 f2 :
  truthy (wsUrl c) = false ∨ wsUrl c = httpUrl c →
  RoomInfo.state ri1 = RoomInfoState.initialized →
  RoomInfo.state ri2 = RoomInfoState.attach_failed →
  Forall (λ ri, RoomInfo.publishState ri ≠ PublishState.error) [ri1; ri2] →
  let o := life JanusErrors [StateEmission ri1 f1; StateEmission ri2 f2] c in
  completes o = true
  ∧ attachCalls (trace o) = [httpUrl c]
  ∧ timersSet (trace o) = []
  ∧ janusErrors (trace o) = [(Some 9999, "Unable to connect to media server")]
  ∧ timers (final o) = timers c.
Proof.
  intros Hws Hs1 Hs2 Hq. cbv zeta.
  apply Forall_cons in Hq as [Hq1 Hq]. apply Forall_cons in Hq as [Hq2 _].
  unfold life. rewrite bind_eq, ngOnInit_outcome. project.
  set (c0 := set_subscribed true (set_janusServerUrl (pickServerUrl c) c)).
  assert (janusServerUrl c0 = httpUrl c) as Hurl0.
  { simpl. unfold pickServerUrl. destruct Hws as [->| ->]; [done|].
    by destruct (truthy (httpUrl c)). }
  rewrite run_cons. cbn [react].
  destruct (deliver_quiet ri1 f1 c0 eq_refl Hq1) as (-> & -> & Ha1 & Ht1 & He1).
  assert (stateAction ri1 c0 =
          MkOutcome c0 [Store_attachVideoRoom (httpUrl c)] (Normal tt)) as Hact1.
  { unfold stateAction. unfold_handler. cbn [final trace completion].
    rewrite Hs1, Hurl0. done. }
  rewrite Hact1 in *. project.
  rewrite run_cons. cbn [react].
  destruct (deliver_quiet ri2 f2 c0 eq_refl Hq2) as (-> & -> & Ha2 & Ht2 & He2).
  rewrite (stateAction_attach_failed ri2 c0 Hs2) in *.
  rewrite (bool_decide_false (janusServerUrl c0 ≠ httpUrl c0)) in *
    by (rewrite Hurl0; by intros Hn; apply Hn).
  project.
  unfold completes, attachCalls, timersSet, janusErrors in *. project.
  rewrite !omap_app. rewrite Ha1, Ha2, Ht1, Ht2, He1, He2.
  done.
Qed.

(** X7. Along every run of emissions that the live subscriber handles
    without throwing, one publisher list is emitted per emission, whatever
    the room state, and each is computed from the feeds of that emission
    alone: the ready feeds, in [Object.keys] order. *)
Theorem publishers_follow_every_emission c (es : list Emission) :
  subscribed c = true →
  Forall (handled JanusErrors) es →
  publisherLists (trace (runEmissions JanusErrors es c)) =
  map (λ e : Emission,
         filter (λ feed, RemoteFeed.state feed = RemoteFeedState.ready)
           (remoteFeedsArray e.2)) es.
Proof.
  intros Hsub Hall. revert es c Hsub Hall.
  apply (runEmissions_handled_ind JanusErrors (λ es tr,
    publisherLists tr =
    map (λ e : Emission,
           filter (λ feed, RemoteFeed.state feed = RemoteFeedState.ready)
             (remoteFeedsArray e.2)) es)); [done|].
  intros [roomInfo remoteFeeds] es c tr _ He IH. cbn [fst snd map].
  unfold publisherLists in *. rewrite omap_app, IH.
  rewrite onState_mapped by done. project. rewrite !omap_app.
  pose proof (reconcileMute_no_publishers roomInfo c) as Hm.
  pose proof (reportPublishError_no_publishers JanusErrors roomInfo c) as Hr.
  pose proof (stateAction_no_publishers roomInfo c) as Hs.
  unfold publisherLists in *. by rewrite Hm, Hr, Hs.
Qed.

Lemma onState_muted roomInfo remoteFeeds c :
  muted (final (onState JanusErrors roomInfo remoteFeeds c)) = muted c.
Proof.
  rewrite onState_outcome. cbv zeta.
  destruct (completion (reportPublishError _ _ _)); project; [|done].
  unfold stateAction, setTimeout. unfold_handler. simpl.
  destruct (RoomInfo.state roomInfo); try done. by case_bool_decide.
Qed.

Lemma mute_calls_of_onState roomInfo remoteFeeds c :
  muteCalls (trace (onState JanusErrors roomInfo remoteFeeds c)) =
  if bool_decide (RoomInfo.muted roomInfo ≠ muted c)
     && bool_decide (RoomInfo.publishState roomInfo = PublishState.publishing)
  then [muted c] else [].
Proof.
  rewrite onState_outcome. cbv zeta.
  pose proof (reportPublishError_no_mute JanusErrors roomInfo c) as Hr.
  pose proof (stateAction_no_mute roomInfo c) as Hs.
  rewrite reconcileMute_outcome. project.
  destruct (completion (reportPublishError JanusErrors roomInfo c)); project.
  - unfold muteCalls in *. rewrite !omap_app, Hr, Hs, emitRemoteFeeds_outcome.
    project. simpl. rewrite app_nil_r. by destruct (_ && _).
  - by destruct (_ && _).
Qed.

(** X8. Setting [isMuted] to [m] tells the store at once, in every publish
    state.  Along the emissions that follow (handled without throwing), the
    store is told [m] again on exactly those emissions that arrive while
    publishing with a [roomInfo.muted] other than [m]; no emission ever
    changes the desired value. *)
Theorem mute_is_repeated_until_applied c (m : bool) (es : list Emission) :
  subscribed c = true →
  Forall (handled JanusErrors) es →
  let o := run JanusErrors (IsMutedSet m :: map (λ e, StateEmission e.1 e.2) es) c in
  muted (final o) = m
  ∧ muteCalls (trace o) =
    m :: omap (λ e : Emission,
                 if bool_decide (RoomInfo.muted e.1 ≠ m)
                    && bool_decide (RoomInfo.publishState e.1 = PublishState.publishing)
                 then Some m else None) es.
Proof.
  intros Hsub Hall. cbv zeta. rewrite run_cons. cbn [react].
  change (set_isMuted m c) with (MkOutcome (set_muted m c) [Store_setMute m] (Normal tt)).
  project. change (muteCalls (?x :: ?l)) with (muteCalls [x] ++ muteCalls l).
  cbn [muteCalls omap list_omap app].
  set (c0 := set_muted m c).
  assert (muted c0 = m) as Hm0 by done.
  assert (subscribed c0 = true) as Hsub0 by done.
  clearbody c0. clear Hsub. revert c0 Hm0 Hsub0.
  induction es as [|[roomInfo remoteFeeds] es IH]; intros c0 Hm0 Hsub0.
  - done.
  - apply Forall_cons in Hall as [He Hall].
    change (run JanusErrors (map ?f ((roomInfo, remoteFeeds) :: es)))
      with (runEmissions JanusErrors ((roomInfo, remoteFeeds) :: es)).
    rewrite runEmissions_cons, bind_eq, deliver_subscribed by done.
    assert (completion (onState JanusErrors roomInfo remoteFeeds c0) = Normal tt) as Hc
      by by rewrite onState_mapped.
    cbn [fst snd]. rewrite Hc. project.
    destruct (IH Hall (final (onState JanusErrors roomInfo remoteFeeds c0)))
      as [Hf Ht].
    { by rewrite onState_muted. }
    { rewrite onState_mapped by done. project. by rewrite stateAction_subscribed. }
    split; [exact Hf|].
    unfold muteCalls in *. rewrite omap_app. cbn [omap list_omap fst].
    injection Ht as Ht. fold (muteCalls (trace (onState JanusErrors roomInfo remoteFeeds c0))).
    rewrite (mute_calls_of_onState roomInfo remoteFeeds c0), Hm0.
    unfold runEmissions. rewrite Ht.
    by destruct (bool_decide (RoomInfo.muted roomInfo ≠ m) && _).
Qed.

(** X9. When the keys of the feed map are distinct, as the keys of an object
    are, [Object.keys(remoteFeeds).map(id => remoteFeeds[id])] lists every
    feed of the map exactly once, in key order, so the publisher list of an
    emission handled to the end is the ready feeds among the values of the
    map: no feed is dropped or repeated. *)
Theorem publishers_cover_the_feed_map roomInfo (remoteFeeds : FeedMap) c :
  NoDup (Object_keys remoteFeeds) →
  handled JanusErrors (roomInfo, remoteFeeds) →
  length (remoteFeedsArray remoteFeeds) = length remoteFeeds
  ∧ publisherLists (trace (onState JanusErrors roomInfo remoteFeeds c)) =
    [filter (λ feed, RemoteFeed.state feed = RemoteFeedState.ready) remoteFeeds.*2].
Proof.
  intros Hnd He. rewrite (remoteFeedsArray_values remoteFeeds Hnd).
  split; [by rewrite length_fmap|].
  rewrite onState_mapped by done. project.
  unfold publisherLists. rewrite !omap_app.
  pose proof (reconcileMute_no_publishers roomInfo c) as Hm.
  pose proof (reportPublishError_no_publishers JanusErrors roomInfo c) as Hr.
  pose proof (stateAction_no_publishers roomInfo c) as Hs.
  unfold publisherLists in *. rewrite Hm, Hr, Hs.
  by rewrite (remoteFeedsArray_values remoteFeeds Hnd).
Qed.

(** X10. The pin is normalised in the same way wherever it is sent: the pin
    that [onAttachRemoteFeed] passes to the store is the pin that the
    [switch] passes to [register] in state [attached], namely [this.pin], or
    [null] when the pin is unset or the empty string; feed and room info of
    the event are passed on unchanged. *)
Theorem pin_is_normalised_alike {P R : Type} c (event : AttachRemoteFeedEvent) roomInfo :
  RoomInfo.state roomInfo = RoomInfoState.attached →
  let pin := if truthy (JanusVideoroom.pin c) then JanusVideoroom.pin c else None in
  (pin = None ↔ JanusVideoroom.pin c = None ∨ JanusVideoroom.pin c = Some EmptyString)
  ∧ trace (onAttachRemoteFeed (P := P) (R := R) event c) =
    [Store_attachRemoteFeed
       {| att_feed := ev_feed event; att_roomInfo := ev_roomInfo event;
          att_pin := pin |}]
  ∧ reg_pin <$> registerCalls (trace (stateAction roomInfo c)) = [pin].
Proof.
  intros Hs. cbv zeta. split_and!.
  - unfold truthy. destruct (JanusVideoroom.pin c) as [s|]; [|by split; eauto].
    case_bool_decide as Hne.
    + split; [done|]. intros [Hn|[= ->]]; done.
    + split; [|done]. intros _. right. f_equal.
      destruct (decide (s = EmptyString)); done.
  - done.
  - unfold stateAction. unfold_handler. simpl. by rewrite Hs.
Qed.

(** X20. A reset starts over with the websocket url: whatever url the
    component had fallen back to, after [ngOnChanges] with a changed reset
    key (and a websocket url that differs from [httpUrl]) the next
    [initialized] emission attaches to [wsUrl], and the next attach failure
    is retried again, once, instead of being fatal. *)
Theorem reset_restores_the_fallback c changes ri1 ri2 f1 f2 :
  resets changes = true →
  subscribed c = true →
  truthy (wsUrl c) = true →
  wsUrl c ≠ httpUrl c →
  RoomInfo.state ri1 = RoomInfoState.initialized →
  RoomInfo.state ri2 = RoomInfoState.attach_failed →
  Forall (λ ri, RoomInfo.publishState ri ≠ PublishState.error) [ri1; ri2] →
  let o := run JanusErrors
             [InputsChanged changes; StateEmission ri1 f1; StateEmission ri2 f2] c in
  completes o = true
  ∧ attachCalls (trace o) = [wsUrl c]
  ∧ timersSet (trace o) = [(RetryAttach, 100)]
  ∧ janusErrors (trace o) = []
  ∧ janusServerUrl (final o) = httpUrl c.
Proof.
  intros Hr Hsub Hws Hne Hs1 Hs2 Hq. cbv zeta.
  apply Forall_cons in Hq as [Hq1 Hq]. apply Forall_cons in Hq as [Hq2 _].
  rewrite run_cons. cbn [react]. rewrite ngOnChanges_outcome, Hr. project.
  set (c0 := set_janusServerUrl (pickServerUrl c) c).
  assert (janusServerUrl c0 = wsUrl c) as Hurl0.
  { simpl. unfold pickServerUrl. by rewrite Hws. }
  rewrite run_cons. cbn [react].
  destruct (deliver_quiet ri1 f1 c0 Hsub Hq1) as (-> & -> & Ha1 & Ht1 & He1).
  assert (stateAction ri1 c0 =
          MkOutcome c0 [Store_attachVideoRoom (wsUrl c)] (Normal tt)) as Hact1.
  { unfold stateAction. unfold_handler. cbn [final trace completion].
    rewrite Hs1, Hurl0. done. }
  rewrite Hact1 in *. project.
  rewrite run_cons. cbn [react].
  destruct (deliver_quiet ri2 f2 c0 Hsub Hq2) as (-> & -> & Ha2 & Ht2 & He2).
  rewrite (stateAction_attach_failed ri2 c0 Hs2) in *.
  rewrite (bool_decide_true (janusServerUrl c0 ≠ httpUrl c0)) in *
    by (rewrite Hurl0; exact Hne).
  project.
  unfold completes, attachCalls, timersSet, janusErrors in *. project.
  rewrite !omap_app. rewrite Ha1, Ha2, Ht1, Ht2, He1, He2.
  done.
Qed.

End VideoroomLife.

(** ** Ticks of the video box *)

Section VideoBoxTicks.
Import VideoBox VideoBoxRuns.
Context {T : Type} {helperOps : VideoQualityHelper T}.

Local Abbreviation cur tk := (RemoteFeed.currentSubstream (fst tk)).

(** Everything a tick does, by kind of tick. *)
Lemma tick_shape (tk : Tick) (c : VideoBox.t T) :
  let c1 := set_remoteFeed (Some tk.1) c in
  let r := ping (videoQualityHelper c) (cur tk) in
  tick tk c =
  if healthy tk then
    if bool_decide (r.2 > cur tk) then
      MkOutcome (set_videoQualityHelper (streamEnd r.1 (cur tk)) c1)
        (Helper_ping (cur tk) :: Helper_streamEnd (cur tk) :: switchTrace c1 tk.1 r.2)
        (Normal tt)
    else MkOutcome (set_videoQualityHelper r.1 c1) [Helper_ping (cur tk)] (Normal tt)
  else
    MkOutcome
      (set_videoQualityHelper (streamError (videoQualityHelper c) (cur tk)) c1)
      (Helper_streamError (cur tk) ::
       if bool_decide (cur tk > 0) then switchTrace c1 tk.1 (cur tk - 1) else [])
      (Normal tt).
Proof.
  cbv zeta. rewrite tick_eq. destruct (healthy tk) eqn:Hh.
  - apply healthy_spec in Hh as [Hn Hs].
    by rewrite (monitor_healthy (set_remoteFeed (Some tk.1) c) tk.1 tk.2 eq_refl Hn Hs).
  - apply unhealthy_spec in Hh.
    by rewrite (monitor_unhealthy (set_remoteFeed (Some tk.1) c) tk.1 tk.2 eq_refl Hh).
Qed.

(** X11. The monitor never throws and never writes the feed, the mode or
    the video id, whatever the scorer answers; without a feed it does
    nothing at all.  [switchSubstream] on its own throws exactly when there
    is no feed, a case the monitor's guard excludes. *)
Theorem monitor_never_throws (c : VideoBox.t T) (slowLink : bool) :
  let o := monitorVideoQuality slowLink c in
  completes o = true
  ∧ remoteFeed (final o) = remoteFeed c
  ∧ mode (final o) = mode c
  ∧ videoId (final o) = videoId c
  ∧ (remoteFeed c = None → trace o = [] ∧ final o = c)
  ∧ (∀ s, completes (switchSubstream s c) = true ↔ remoteFeed c ≠ None).
Proof.
  cbv zeta. split_and!.
  1-4: destruct (remoteFeed c) as [feed|] eqn:Hf;
    [ destruct (decide (RemoteFeed.numVideoTracks feed = 0 ∨ slowLink = true)) as [Hb|Hb];
      [ rewrite (monitor_unhealthy c feed slowLink Hf Hb); done
      | assert (RemoteFeed.numVideoTracks feed ≠ 0 ∧ slowLink = false) as [Hn Hs]
          by (split; [intros Hz; apply Hb; by left
                     |destruct slowLink; [exfalso; apply Hb; by right|done]]);
        rewrite (monitor_healthy c feed slowLink Hf Hn Hs); cbv zeta;
        by case_bool_decide ]
    | unfold monitorVideoQuality; unfold_handler; simpl; by rewrite ?Hf ].
  - intros Hf. unfold monitorVideoQuality. unfold_handler. simpl. by rewrite Hf.
  - intros s. unfold switchSubstream, completes. unfold_handler. simpl.
    destruct (remoteFeed c) as [feed|]; [|done].
    split; [done|]. intros _. by case_bool_decide.
Qed.

(** X12. A tick proposes at most one substream and requests at most one,
    and what it requests is what it proposed, on that tick, or nothing. *)
Theorem tick_requests_at_most_once (tk : Tick) (c : VideoBox.t T) :
  let tr := trace (tick tk c) in
  (length (proposals tr) ≤ 1)%nat
  ∧ (length (requests tr) ≤ 1)%nat
  ∧ (requests tr = [] ∨ requests tr = proposals tr).
Proof.
  cbv zeta. rewrite tick_shape. cbv zeta.
  destruct (healthy tk); repeat case_bool_decide; project;
    unfold switchTrace; repeat case_bool_decide; simpl; split_and!; eauto.
Qed.

(** X13. A tick never proposes the substream the feed is on.  What an
    unhealthy tick proposes is exactly one layer down and never below 0;
    what a healthy tick proposes is the scorer's candidate, above the
    current layer.  So a proposal downwards is never made while the feed
    has video and the link is fine. *)
Theorem tick_proposal_direction (tk : Tick) (c : VideoBox.t T) (s : Z) :
  s ∈ proposals (trace (tick tk c)) →
  s ≠ cur tk
  ∧ (healthy tk = false → s = cur tk - 1 ∧ (0 ≤ s)%Z)
  ∧ (healthy tk = true →
       s > cur tk ∧ s = (ping (videoQualityHelper c) (cur tk)).2).
Proof.
  rewrite tick_shape. cbv zeta.
  destruct (healthy tk); repeat case_bool_decide; project;
    unfold switchTrace; simpl;
    try (intros ?%elem_of_nil; done);
    case_bool_decide; simpl; intros ->%list_elem_of_singleton;
    split_and!; try done; try lia; intros _; split; (done || lia).
Qed.

(** X14. The calls a tick makes on the scorer: an unhealthy tick only
    records a stream error for the current layer; a healthy tick pings the
    current layer once, and closes the layer with [streamEnd] exactly when
    the candidate is above it, that is exactly when it proposes an upgrade.
    The scorer is never called for another layer than the current one. *)
Theorem tick_scorer_calls (tk : Tick) (c : VideoBox.t T) :
  let o := tick tk c in
  let r := ping (videoQualityHelper c) (cur tk) in
  helperCalls (trace o) =
    (if healthy tk then
       Helper_ping (cur tk) ::
       (if bool_decide (r.2 > cur tk) then [Helper_streamEnd (cur tk)] else [])
     else [Helper_streamError (cur tk)])
  ∧ videoQualityHelper (final o) =
    (if healthy tk then
       if bool_decide (r.2 > cur tk) then streamEnd r.1 (cur tk) else r.1
     else streamError (videoQualityHelper c) (cur tk))
  ∧ proposesAbove (cur tk) (trace o) = healthy tk && bool_decide (r.2 > cur tk).
Proof.
  cbv zeta. rewrite tick_shape. cbv zeta.
  destruct (healthy tk); cbn [andb].
  - destruct (decide ((ping (videoQualityHelper c) (cur tk)).2 > cur tk)) as [Hgt|Hle].
    + rewrite !(bool_decide_true _ Hgt). project. unfold switchTrace.
      split_and!; [by case_bool_decide|done|]. simpl.
      by rewrite (bool_decide_true _ Hgt).
    + by rewrite !(bool_decide_false _ Hle).
  - project. split_and!; [|done|].
    + case_bool_decide; [|done]. unfold switchTrace. by case_bool_decide.
    + case_bool_decide; [|done]. unfold switchTrace. simpl.
      rewrite bool_decide_false by lia. by case_bool_decide.
Qed.

Lemma descent_tick (f : RemoteFeed.t) (n : nat) (c : VideoBox.t T) :
  let feed := RemoteFeed.Mk (RemoteFeed.id f) (RemoteFeed.state f)
                (RemoteFeed.streamId f) 0 (Z.of_nat n) (Z.of_nat n) in
  completion (tick (feed, false) c) = Normal tt
  ∧ proposals (trace (tick (feed, false) c)) =
    (if bool_decide (Z.of_nat n > 0) then [Z.of_nat n - 1] else [])
  ∧ requests (trace (tick (feed, false) c)) =
    (if bool_decide (Z.of_nat n > 0) then [Z.of_nat n - 1] else []).
Proof.
  cbv zeta. rewrite tick_shape. cbv zeta.
  match goal with |- context [healthy ?tk] =>
    assert (healthy tk = false) as -> by (by vm_compute) end.
  project. cbn [fst RemoteFeed.currentSubstream].
  case_bool_decide; [|done]. unfold switchTrace. simpl.
  by rewrite bool_decide_true by lia.
Qed.

(** X15. Degrading goes all the way: for a feed without video playing
    substream [k], if the media server applies each request before the next
    tick, the ticks request the substreams [k - 1, ..., 0], one per tick,
    and the tick on substream 0 requests nothing; whatever the scorer. *)
Theorem descent_reaches_lowest (f : RemoteFeed.t) (k : nat) (c : VideoBox.t T) :
  let o := runTicks (descent f k) c in
  completes o = true
  ∧ proposals (trace o) = countdown k
  ∧ requests (trace o) = countdown k.
Proof.
  cbv zeta. revert c. induction k as [|k IH]; intros c.
  - unfold runTicks. cbn [descent sequence_]. rewrite bind_eq.
    destruct (descent_tick f 0 c) as (-> & Hp & Hr). project.
    unfold completes, proposals, requests in *. project.
    rewrite !omap_app, Hp, Hr. done.
  - unfold runTicks in *. cbn [descent sequence_]. rewrite bind_eq.
    destruct (descent_tick f (S k) c) as (-> & Hp & Hr). project.
    match goal with |- context [sequence_ tick (descent f k) ?c'] =>
      destruct (IH c') as (Hc & Hp2 & Hr2) end.
    unfold completes, proposals, requests in *.
    rewrite !omap_app, Hp, Hr, Hp2, Hr2.
    rewrite bool_decide_true by lia. cbn [countdown app].
    split_and!; [done|f_equal; lia..].
Qed.

Lemma switchTrace_no_streamError (c : VideoBox.t T) feed x s :
  Helper_streamError s ∉ switchTrace c feed x.
Proof.
  unfold switchTrace. intros Hin.
  apply elem_of_cons in Hin as [Hin|Hin]; [discriminate|].
  case_bool_decide; [|by apply elem_of_nil in Hin].
  apply elem_of_cons in Hin as [Hin|Hin]; [discriminate|].
  apply elem_of_cons in Hin as [Hin|Hin]; [discriminate|].
  by apply elem_of_nil in Hin.
Qed.

(** X16. [ngOnChanges] runs the monitor only when the feed is among the
    changes, and always with the slow-link signal off: the scorer is told of
    a stream error from there only for a feed that has no video track. *)
Theorem ngOnChanges_never_asserts_slow_link (changes : gmap string ()) (c : VideoBox.t T) :
  let o := ngOnChanges changes c in
  completes o = true
  ∧ (changes !! "remoteFeed" = None → trace o = [] ∧ final o = c)
  ∧ (∀ s, Helper_streamError s ∈ trace o →
       ∃ feed, remoteFeed c = Some feed
               ∧ RemoteFeed.numVideoTracks feed = 0
               ∧ s = RemoteFeed.currentSubstream feed).
Proof.
  cbv zeta. unfold ngOnChanges.
  destruct (changes !! "remoteFeed") as [[]|]; cbv zeta.
  2: { split_and!; try done. intros s Hin. by apply elem_of_nil in Hin. }
  destruct (remoteFeed c) as [feed|] eqn:Hf.
  2: { unfold monitorVideoQuality. unfold_handler. simpl. rewrite Hf.
       split_and!; try done. intros s Hin. by apply elem_of_nil in Hin. }
  destruct (decide (RemoteFeed.numVideoTracks feed = 0)) as [Hz|Hn].
  - rewrite (monitor_unhealthy c feed false Hf (or_introl Hz)). cbv zeta. project.
    split_and!; try done. intros s Hin. exists feed. split_and!; try done.
    apply elem_of_cons in Hin as [[= ->]|Hin]; [done|].
    case_bool_decide; [|by apply elem_of_nil in Hin].
    by apply switchTrace_no_streamError in Hin.
  - rewrite (monitor_healthy c feed false Hf Hn eq_refl). cbv zeta.
    case_bool_decide; project; split_and!; try done; intros s Hin.
    + apply elem_of_cons in Hin as [Hin|Hin]; [discriminate|].
      apply elem_of_cons in Hin as [Hin|Hin]; [discriminate|].
      by apply switchTrace_no_streamError in Hin.
    + apply elem_of_cons in Hin as [Hin|Hin]; [discriminate|].
      by apply elem_of_nil in Hin.
Qed.

End VideoBoxTicks.

(** ** The id of the video element *)

Section VideoBoxId.
Import VideoBox.
Context {T : Type}.

Lemma chars_app (s1 s2 : string) :
  String.list_ascii_of_string (s1 +:+ s2) =
  String.list_ascii_of_string s1 ++ String.list_ascii_of_string s2.
Proof. induction s1 as [|a s1 IH]; simpl; [done|]. by rewrite IH. Qed.

Lemma chars_inj (s1 s2 : string) :
  String.list_ascii_of_string s1 = String.list_ascii_of_string s2 → s1 = s2.
Proof.
  intros Heq. rewrite <- (String.string_of_list_ascii_of_string s1), Heq.
  apply String.string_of_list_ascii_of_string.
Qed.

(** An id followed by the name of a mode determines both. *)
Lemma id_mode_inj (i1 i2 : string) (m1 m2 : option Mode) :
  i1 +:+ Mode_toString m1 = i2 +:+ Mode_toString m2 → i1 = i2 ∧ m1 = m2.
Proof.
  intros Heq. apply (f_equal String.list_ascii_of_string) in Heq.
  rewrite !chars_app in Heq.
  assert (m1 = m2) as ->.
  { apply (f_equal (@List.rev _)) in Heq. rewrite !rev_app_distr in Heq.
    destruct m1 as [[]|], m2 as [[]|]; try done; simpl in Heq; discriminate. }
  split; [|done]. apply app_inv_tail in Heq. by apply chars_inj.
Qed.

(** X17. The id that [ngOnInit] gives the video element, 'video-' followed
    by the feed id and the mode, is unique: two video boxes get the same id
    only if they show the same feed in the same mode.  Without a feed
    [ngOnInit] throws. *)
Theorem videoId_is_unique (c1 c2 : VideoBox.t T) :
  (completes (ngOnInit c1) = true ↔ remoteFeed c1 ≠ None)
  ∧ (∀ f1 f2,
       remoteFeed c1 = Some f1 → remoteFeed c2 = Some f2 →
       videoId (final (ngOnInit c1)) = videoId (final (ngOnInit c2)) →
       RemoteFeed.id f1 = RemoteFeed.id f2 ∧ mode c1 = mode c2).
Proof.
  split.
  - unfold ngOnInit, completes. unfold_handler. simpl.
    by destruct (remoteFeed c1).
  - intros f1 f2 Hf1 Hf2. unfold ngOnInit. unfold_handler. simpl.
    rewrite Hf1, Hf2. simpl. intros [= Heq]. by apply id_mode_inj.
Qed.

End VideoBoxId.

(** ** The device selector *)

Section DeviceSelectorFacts.
Import DeviceSelector.

Lemma filter_kinds_length (allDevices : list MediaDeviceInfo) :
  (length (filter (λ device, kind device = "audioinput") allDevices)
   + length (filter (λ device, kind device = "videoinput") allDevices)
   + length (filter (λ device, kind device = "audiooutput") allDevices)
   + length (filter (λ device, ¬ knownKind (kind device)) allDevices)
   = length allDevices)%nat.
Proof.
  induction allDevices as [|d l IH]; [done|].
  rewrite !filter_cons. unfold knownKind in *.
  destruct (decide (kind d = "audioinput")) as [Ha|Ha];
    destruct (decide (kind d = "videoinput")) as [Hv|Hv];
    destruct (decide (kind d = "audiooutput")) as [Ho|Ho];
    try (rewrite Ha in *; discriminate); try (rewrite Hv in *; discriminate);
    case_decide as Hk; simpl; try lia; exfalso; tauto.
Qed.

(** X18. When the list of devices arrives, [getDevices] sorts it into the
    three lists by kind.  Each list holds exactly the devices of its kind,
    in the order of the list received; no device is in two lists; a device
    of any other kind is in none; and when every device has one of the three
    kinds the lists together have as many devices as were received.  The
    form and the subscription are left alone and change detection runs
    once. *)
Theorem getDevices_sorts_by_kind (allDevices : list MediaDeviceInfo) (supports : bool) c :
  let o := getDevices_resume allDevices supports c in
  let audio := default [] (availableAudioDevices (final o)) in
  let video := default [] (availableVideoDevices (final o)) in
  let speaker := default [] (availableSpeakerDevices (final o)) in
  trace o = [ChangeDetector_detectChanges]
  ∧ supportsSpeakerSelection (final o) = supports
  ∧ devicesForm (final o) = devicesForm c
  ∧ subscribed (final o) = subscribed c
  ∧ (∀ d, (d ∈ audio ↔ d ∈ allDevices ∧ kind d = "audioinput")
          ∧ (d ∈ video ↔ d ∈ allDevices ∧ kind d = "videoinput")
          ∧ (d ∈ speaker ↔ d ∈ allDevices ∧ kind d = "audiooutput"))
  ∧ audio `sublist_of` allDevices
  ∧ video `sublist_of` allDevices
  ∧ speaker `sublist_of` allDevices
  ∧ (∀ d, ¬ (d ∈ audio ∧ d ∈ video) ∧ ¬ (d ∈ audio ∧ d ∈ speaker)
          ∧ ¬ (d ∈ video ∧ d ∈ speaker))
  ∧ (length audio + length video + length speaker ≤ length allDevices)%nat
  ∧ (Forall (λ d, knownKind (kind d)) allDevices →
     (length audio + length video + length speaker = length allDevices)%nat).
Proof.
  cbv zeta. unfold getDevices_resume. unfold_handler. simpl.
  pose proof (filter_kinds_length allDevices) as Hlen.
  split_and!; try done.
  - intros d. rewrite !list_elem_of_filter. tauto.
  - apply sublist_filter.
  - apply sublist_filter.
  - apply sublist_filter.
  - intros d. rewrite !list_elem_of_filter.
    split_and!; intros [[Hk1 _] [Hk2 _]]; rewrite Hk1 in Hk2; discriminate.
  - lia.
  - intros Hall.
    assert (filter (λ device, ¬ knownKind (kind device)) allDevices = []) as Hnone.
    { clear Hlen. induction Hall as [|d l Hd Hl IH]; [done|].
      rewrite filter_cons. by rewrite decide_False by tauto. }
    rewrite Hnone in Hlen. simpl in Hlen. lia.
Qed.

Lemma select_subscribed k v form c :
  devicesForm c = Some form →
  subscribed c = true →
  select k v c =
  MkOutcome
    (Mk (devices c) (Some (setControl k v form)) (availableAudioDevices c)
        (availableVideoDevices c) (availableSpeakerDevices c)
        (supportsSpeakerSelection c) true)
    [Emit_deviceUpdate
       (setDevice k v {| audioDeviceId := audioDevice form;
                         videoDeviceId := videoDevice form;
                         speakerDeviceId := speakerDevice form |})]
    (Normal tt).
Proof.
  intros Hf Hsub. unfold select, onValueChanges. unfold_handler. simpl.
  rewrite Hf, Hsub. simpl. by destruct k.
Qed.

Lemma selectAll_subscribed picks form c :
  devicesForm c = Some form →
  subscribed c = true →
  completion (selectAll picks c) = Normal tt
  ∧ deviceUpdates (trace (selectAll picks c)) =
    picked {| audioDeviceId := audioDevice form;
              videoDeviceId := videoDevice form;
              speakerDeviceId := speakerDevice form |} picks.
Proof.
  revert form c. induction picks as [|[k v] picks IH]; intros form c Hf Hsub.
  - done.
  - unfold selectAll in *. cbn [sequence_ fst snd]. rewrite bind_eq.
    rewrite (select_subscribed k v form c Hf Hsub). project.
    match goal with |- context [sequence_ _ picks ?c'] =>
      destruct (IH (setControl k v form) c' eq_refl eq_refl) as [Hc Ht] end.
    rewrite Hc. split; [done|].
    unfold deviceUpdates in *. rewrite omap_app, Ht. cbn [omap list_omap app picked fst snd].
    by destruct k.
Qed.

Lemma selectAll_unsubscribed picks c :
  subscribed c = false →
  completion (selectAll picks c) = Normal tt
  ∧ trace (selectAll picks c) = [].
Proof.
  revert c. induction picks as [|[k v] picks IH]; intros c Hsub; [done|].
  unfold selectAll in *. cbn [sequence_ fst snd]. rewrite bind_eq.
  assert (select k v c =
          MkOutcome
            (Mk (devices c) (setControl k v <$> devicesForm c)
               (availableAudioDevices c) (availableVideoDevices c)
               (availableSpeakerDevices c) (supportsSpeakerSelection c) false)
            [] (Normal tt)) as ->.
  { unfold select. unfold_handler. simpl. rewrite Hsub. by destruct c. }
  project. match goal with |- context [sequence_ _ picks ?c'] =>
    destruct (IH c' eq_refl) as [Hc Ht] end.
  by rewrite Hc, Ht.
Qed.

(** X19. [ngOnInit] fills the form with the three ids of the [devices]
    input, asks once for the list of devices and subscribes to the form.
    From then on every pick in a selector emits one [deviceUpdate] that
    carries the value just picked under the matching id and, for the other
    two, the values picked before or else the ids of the input.  After
    [ngOnDestroy] picks emit nothing. *)
Theorem picks_are_emitted_until_destroyed (d : Devices)
    (picks : list (Control * option string)) :
  let o := ngOnInit (constructor d) in
  trace o = [Webrtc_listDevices]
  ∧ completes (selectAll picks (final o)) = true
  ∧ deviceUpdates (trace (selectAll picks (final o))) = picked d picks
  ∧ trace (selectAll picks (final (ngOnDestroy (final o)))) = [].
Proof.
  cbv zeta. split_and!.
  - done.
  - unfold completes.
    by destruct (selectAll_subscribed picks _ (final (ngOnInit (constructor d)))
                   eq_refl eq_refl) as [-> _].
  - destruct (selectAll_subscribed picks _ (final (ngOnInit (constructor d)))
                eq_refl eq_refl) as [_ ->].
    simpl. by destruct d.
  - by destruct (selectAll_unsubscribed picks
                   (final (ngOnDestroy (final (ngOnInit (constructor d))))) eq_refl)
      as [_ ->].
Qed.

End DeviceSelectorFacts.

(** ** The further properties on concrete inputs *)

Section HostExamples.
Import JanusVideoroom JanusVideoroomHost Sample SampleRuns.

(** The subscriber throws on an error code outside the table; the mute
    change and the publisher list of the emission that come after it are
    still handled when the stream library keeps the subscription, and the
    mute change alone when it drops it. *)
Lemma run_goes_on_after_a_throw :
  (play errors false
     [ Init_started; Init_resumed;
       State_emitted (info RoomInfoState.registered PublishState.error (Some 499)) feeds;
       Muted_set true;
       State_emitted (quiet RoomInfoState.registered) [] ]
     (MkHost constructed 0 false)).2
  = [ Store_initialize (iceServers constructed); Store_setMute true;
      Emit_publishers [] ]
  ∧ (play errors true
       [ Init_started; Init_resumed;
         State_emitted (info RoomInfoState.registered PublishState.error (Some 499)) feeds;
         Muted_set true;
         State_emitted (quiet RoomInfoState.registered) [] ]
       (MkHost constructed 0 false)).2
    = [ Store_initialize (iceServers constructed); Store_setMute true ].
Proof. split; vm_compute; reflexivity. Qed.

(** A failure, a reset after the retry, and a second failure: two retry
    timers, one for the start and one for the reset, and the attach calls
    go to the two urls. *)
Lemma retry_again_after_a_reset :
  ∀ unsubscribesOnError,
    let tr := (play errors unsubscribesOnError
      [ Init_started; Init_resumed;
        State_emitted (quiet RoomInfoState.initialized) feeds;
        State_emitted (quiet RoomInfoState.attach_failed) feeds;
        Timer_elapsed;
        Inputs_bound [Bind_userName "guest"] userNameChanged;
        State_emitted (quiet RoomInfoState.initialized) feeds;
        State_emitted (quiet RoomInfoState.attach_failed) feeds;
        Timer_elapsed ]
      (MkHost constructed 0 false)).2 in
    timersSet tr = [(RetryAttach, 100); (RetryAttach, 100)]
    ∧ attachCalls tr = [ws; http; ws; http].
Proof. intros []; split; vm_compute; reflexivity. Qed.

End HostExamples.

Section FurtherExamples.
Import JanusVideoroom JanusVideoroomRuns JanusVideoroomEvents Sample SampleRuns.

Lemma attach_falls_back_once_then_fails_witness :
  truthy (wsUrl constructed) = true
  ∧ attachCalls (trace (life errors
      [ StateEmission (quiet RoomInfoState.initialized) feeds;
        StateEmission (quiet RoomInfoState.attach_failed) feeds;
        TimerElapsed;
        StateEmission (quiet RoomInfoState.attach_failed) feeds ] constructed))
    = [ws; http].
Proof.
  split; [reflexivity|].
  refine (proj1 (proj2 (attach_falls_back_once_then_fails errors constructed
    (quiet RoomInfoState.initialized) (quiet RoomInfoState.attach_failed)
    (quiet RoomInfoState.attach_failed) feeds feeds feeds
    eq_refl _ eq_refl eq_refl eq_refl eq_refl _))).
  - discriminate.
  - repeat constructor; discriminate.
Defined.

Lemma attach_without_fallback_fails_at_once_witness :
  truthy (wsUrl httpOnly) = false
  ∧ janusErrors (trace (life errors
      [ StateEmission (quiet RoomInfoState.initialized) feeds;
        StateEmission (quiet RoomInfoState.attach_failed) feeds ] httpOnly))
    = [(Some 9999, "Unable to connect to media server")].
Proof.
  split; [reflexivity|].
  refine (proj1 (proj2 (proj2 (proj2 (attach_without_fallback_fails_at_once errors
    httpOnly (quiet RoomInfoState.initialized) (quiet RoomInfoState.attach_failed)
    feeds feeds (or_introl eq_refl) eq_refl eq_refl _))))).
  repeat constructor; discriminate.
Defined.

Lemma publishers_follow_every_emission_witness :
  subscribed room = true
  ∧ publisherLists (trace (runEmissions errors
      [ (quiet RoomInfoState.registered, feeds);
        (quiet RoomInfoState.registered, []) ] room))
    = [ [feed "10" RemoteFeedState.ready 1 0 0; feed "12" RemoteFeedState.ready 1 2 2];
        [] ].
Proof.
  split; [reflexivity|].
  refine (publishers_follow_every_emission errors room
    [ (quiet RoomInfoState.registered, feeds);
      (quiet RoomInfoState.registered, []) ] eq_refl _).
  repeat constructor; discriminate.
Defined.

Lemma mute_is_repeated_until_applied_witness :
  subscribed room = true
  ∧ muteCalls (trace (run errors
      [ IsMutedSet true;
        StateEmission publishingOpen feeds;
        StateEmission publishingMuted feeds ] room))
    = [true; true].
Proof.
  split; [reflexivity|].
  refine (proj2 (mute_is_repeated_until_applied errors room true
    [ (publishingOpen, feeds); (publishingMuted, feeds) ] eq_refl _)).
  repeat constructor; discriminate.
Defined.

Lemma publishers_cover_the_feed_map_witness :
  NoDup (Object_keys feeds)
  ∧ length (remoteFeedsArray feeds) = 3%nat.
Proof.
  assert (NoDup (Object_keys feeds)) as Hnd.
  { repeat constructor; intros Hin;
      repeat (apply elem_of_cons in Hin as [Hin|Hin]; [discriminate|]);
      by apply elem_of_nil in Hin. }
  split; [exact Hnd|].
  refine (proj1 (publishers_cover_the_feed_map errors
    (quiet RoomInfoState.registered) feeds room Hnd _)).
  discriminate.
Defined.

Lemma pin_is_normalised_alike_witness :
  RoomInfo.state (quiet RoomInfoState.attached) = RoomInfoState.attached
  ∧ reg_pin <$> registerCalls
      (trace (stateAction (quiet RoomInfoState.attached) constructed))
    = [Some "secret"].
Proof.
  split; [reflexivity|].
  exact (proj2 (proj2 (pin_is_normalised_alike (P := unit) (R := unit) constructed
    {| ev_feed := stalled; ev_roomInfo := quiet RoomInfoState.attached |}
    (quiet RoomInfoState.attached) eq_refl))).
Defined.

Lemma reset_restores_the_fallback_witness :
  resets userNameChanged = true
  ∧ attachCalls (trace (run errors
      [ InputsChanged userNameChanged;
        StateEmission (quiet RoomInfoState.initialized) feeds;
        StateEmission (quiet RoomInfoState.attach_failed) feeds ] retrying))
    = [ws].
Proof.
  split; [reflexivity|].
  refine (proj1 (proj2 (reset_restores_the_fallback errors retrying userNameChanged
    (quiet RoomInfoState.initialized) (quiet RoomInfoState.attach_failed)
    feeds feeds eq_refl eq_refl eq_refl _ eq_refl eq_refl _))).
  - discriminate.
  - repeat constructor; discriminate.
Defined.

Lemma tick_proposal_direction_witness :
  1 ∈ VideoBox.proposals
        (trace (VideoBox.tick (helperOps := Scorer.helper 3) (stalled, false)
                  (box stalled)))
  ∧ 1 ≠ RemoteFeed.currentSubstream stalled.
Proof.
  assert (1 ∈ VideoBox.proposals
            (trace (VideoBox.tick (helperOps := Scorer.helper 3) (stalled, false)
                      (box stalled)))) as Hin.
  { vm_compute. constructor. }
  split; [exact Hin|].
  exact (proj1 (tick_proposal_direction (helperOps := Scorer.helper 3)
    (stalled, false) (box stalled) 1 Hin)).
Defined.

End FurtherExamples.
